(** * docker-connector: the resolution-and-handoff workflow of [main.go]

    A shallow embedding of [getECSTask], [getEC2InstanceID], [getContainerID],
    [startSSMSession] and the retry loop of [main], over an explicit model of
    the collaborators the program talks to (the ECS control plane, the clock,
    the pseudo-random source of [math/rand] and the spawned [aws] process). *)

From Stdlib Require Import String Ascii List ZArith Bool Lia.
Import ListNotations.

Local Open Scope string_scope.
Local Open Scope list_scope.
Local Open Scope Z_scope.

(** ** Values of the Go program *)

(** A Go [error] built by [fmt.Errorf] is observed through its message. *)
Definition error : Type := string.

(** A function returning [(value, error)]: the value, or the non-nil error. *)
Inductive result (A : Type) : Type :=
| Ok (a : A)
| Err (e : error).
Arguments Ok {A} a.
Arguments Err {A} e.

(** The call results of the SDK, [(output, err)]: [inl output] when [err] is
    nil, [inr err] otherwise. *)
Definition sdk (A : Type) : Type := (A + error)%type.

(** The SDK's [types.Container], [types.Task] and [types.ContainerInstance]
    are declared outside the repository; the records keep the fields [main.go]
    reads.  The program dereferences each of the four string fields
    ([*container.Name], [*container.RuntimeId], [*containerInstanceArn],
    [*selectedInstance.Ec2InstanceId]): they are pointers to strings, and
    [None] is the nil pointer of a field that the answer leaves out (the host
    reference of a task that runs on no container instance, the runtime
    identifier of a container that has not started). *)
Module types.
Inductive DesiredStatus : Type :=
| DesiredStatusRunning
| DesiredStatusPending
| DesiredStatusStopped.

Record Container : Type :=
  { Name : option string; RuntimeId : option string }.

Record Task : Type :=
  { ContainerInstanceArn : option string; Containers : list Container }.

Record ContainerInstance : Type := { Ec2InstanceId : option string }.
End types.

(** The inputs and outputs of the three control-plane operations used. *)
Module ecs.
Record ListTasksInput : Type :=
  { lt_Cluster : string;
    lt_ServiceName : string;
    lt_DesiredStatus : types.DesiredStatus }.
Record ListTasksOutput : Type := { TaskArns : list string }.

Record DescribeTasksInput : Type :=
  { dt_Cluster : string; dt_Tasks : list string }.
Record DescribeTasksOutput : Type := { Tasks : list types.Task }.

Record DescribeContainerInstancesInput : Type :=
  { dci_Cluster : string; dci_ContainerInstances : list string }.
Record DescribeContainerInstancesOutput : Type :=
  { ContainerInstances : list types.ContainerInstance }.
End ecs.

(** The caller identity printed by [validateAWSCredentials]. *)
Record CallerIdentity : Type :=
  { Arn : string; Account : string; UserId : string }.

(** The four flag variables of [main] after [flag.Parse]; a flag that was not
    given holds its default, the empty string. *)
Record Flags : Type :=
  { clusterName : string;
    serviceName : string;
    containerName : string;
    profile : string }.

(** ** What the program does to the outside world *)

(** An argument of a [Printf]-style call, kept beside its format string. *)
Inductive Arg : Type :=
| ArgString (s : string)
| ArgInt (n : Z)
| ArgDuration (d : Z)
| ArgError (e : error).

(** One interaction with a collaborator, with the answer received. *)
Inductive Event : Type :=
| EvLoadDefaultConfig (sharedProfile : option string) (region : string)
    (r : option error)
| EvGetCallerIdentity (r : sdk CallerIdentity)
| EvListTasks (i : ecs.ListTasksInput) (r : sdk ecs.ListTasksOutput)
| EvDescribeTasks (i : ecs.DescribeTasksInput) (r : sdk ecs.DescribeTasksOutput)
| EvDescribeContainerInstances (i : ecs.DescribeContainerInstancesInput)
    (r : sdk ecs.DescribeContainerInstancesOutput)
| EvNow (unixNano : Z)
| EvSleep (d : Z)
| EvLog (format : string) (args : list Arg)
| EvPrint (format : string) (args : list Arg)
| EvRun (argv : list string) (r : option error).

(** The collaborators: each answer may depend on everything that happened
    before (the history, oldest event first) and on the request. *)
Record Env : Type :=
  { LoadDefaultConfig : list Event -> option string -> string -> option error;
    GetCallerIdentity : list Event -> sdk CallerIdentity;
    ListTasks : list Event -> ecs.ListTasksInput -> sdk ecs.ListTasksOutput;
    DescribeTasks :
      list Event -> ecs.DescribeTasksInput -> sdk ecs.DescribeTasksOutput;
    DescribeContainerInstances :
      list Event -> ecs.DescribeContainerInstancesInput ->
      sdk ecs.DescribeContainerInstancesOutput;
    UnixNano : list Event -> Z;
    Run : list Event -> list string -> option error }.

(** How a computation ends: it returns, the process exits ([log.Fatal] calls
    [os.Exit(1)]), or the Go runtime panics (an index out of range, a nil
    pointer dereferenced). *)
Inductive Outcome (A : Type) : Type :=
| Ret (a : A)
| Exit (code : Z)
| Panic (msg : string).
Arguments Ret {A} a.
Arguments Exit {A} code.
Arguments Panic {A} msg.

(** The exit status of the process for the outcome of [main]. *)
Definition exit_status {A : Type} (o : Outcome A) : Z :=
  match o with
  | Ret _ => 0
  | Exit c => c
  | Panic _ => 2
  end.

(** ** Error values of the resolvers, by their [fmt.Errorf] message *)

Definition NoRunningTasks (serviceName : string) : error :=
  ("no running tasks found for service " ++ serviceName)%string.
Definition DescribeFailed : error := "could not describe the ECS task".
Definition DescribeInstanceFailed : error :=
  "could not describe container instance".
Definition NoHostInstances (clusterName : string) : error :=
  ("no container instances found for cluster " ++ clusterName)%string.
Definition ContainerNotFound (containerName : string) : error :=
  ("no container named " ++ containerName ++ " found in task")%string.

(** The message of the runtime error raised by [*p] for a nil [p]. *)
Definition nil_dereference : string :=
  "invalid memory address or nil pointer dereference".

(** The line feed that ends some of the messages. *)
Definition newline : string := String (ascii_of_nat 10) EmptyString.

(** [time.Second] in nanoseconds, the unit of [time.Duration]. *)
Definition time_Second : Z := 1000000000.

(** Event classifiers used to count what a run did. *)
Definition is_sleep (e : Event) : bool :=
  match e with EvSleep _ => true | _ => false end.
Definition is_ListTasks (e : Event) : bool :=
  match e with EvListTasks _ _ => true | _ => false end.
Definition is_DescribeTasks (e : Event) : bool :=
  match e with EvDescribeTasks _ _ => true | _ => false end.
Definition is_DescribeContainerInstances (e : Event) : bool :=
  match e with EvDescribeContainerInstances _ _ => true | _ => false end.
Definition is_Run (e : Event) : bool :=
  match e with EvRun _ _ => true | _ => false end.
Definition is_lookup (e : Event) : bool :=
  is_ListTasks e || is_DescribeTasks e || is_DescribeContainerInstances e.

(** The events of the startup and the messages: no lookup, launch, clock
    reading or sleep. *)
Definition is_note (e : Event) : bool :=
  match e with
  | EvLoadDefaultConfig _ _ _ | EvGetCallerIdentity _
  | EvLog _ _ | EvPrint _ _ => true
  | _ => false
  end.

Definition count (p : Event -> bool) (es : list Event) : nat :=
  length (filter p es).

(** ** The container scan of [getContainerID] (the [for ... range] loop)

    Each round dereferences the name of the container at hand, and the round
    that finds the name dereferences the runtime identifier; either panics
    on a nil pointer. *)

Fixpoint scanContainers (containers : list types.Container)
    (containerName : string) : Outcome (result string) :=
  match containers with
  | [] => Ret (Err (ContainerNotFound containerName))
  | container :: rest =>
      match types.Name container with
      | None => Panic nil_dereference
      | Some name =>
          if String.eqb name containerName
          then
            match types.RuntimeId container with
            | None => Panic nil_dereference
            | Some runtimeId => Ret (Ok runtimeId)
            end
          else scanContainers rest containerName
      end
  end.

(** The double quote, for the JSON parameter of the session command. *)
Definition dquote : string := String (ascii_of_nat 34) EmptyString.

(** [fmt.Sprintf] of the [--parameters] template with the container
    identifier. *)
Definition ssmParameters (containerID : string) : string :=
  ("{" ++ dquote ++ "command" ++ dquote ++ ":[" ++ dquote
     ++ "sudo docker exec -it " ++ containerID ++ " bash" ++ dquote ++ "]}")%string.

(** The command line built by [startSSMSession]; [profile] is the [*string]
    argument, [None] for a nil pointer. *)
Definition ssmCmd (instanceID containerID : string) (profile : option string)
    (region : string) : list string :=
  let ssmCmd :=
    [ "aws"; "ssm"; "start-session";
      "--target"; instanceID;
      "--document-name"; "AWS-StartInteractiveCommand";
      "--parameters"; ssmParameters containerID;
      "--region"; region ] in
  match profile with
  | Some p => ssmCmd ++ ["--profile"; p]
  | None => ssmCmd
  end.


(** The same two for the first version of the program ([part_000]), whose
    parameter is not JSON but [command="..."]. *)
Definition ssmParameters_v1 (containerID : string) : string :=
  ("command=" ++ dquote ++ "sudo docker exec -it " ++ containerID ++ " bash"
     ++ dquote)%string.

Definition ssmCmd_v1 (instanceID containerID : string)
    (profile : option string) (region : string) : list string :=
  let ssmCmd :=
    [ "aws"; "ssm"; "start-session";
      "--target"; instanceID;
      "--document-name"; "AWS-StartInteractiveCommand";
      "--parameters"; ssmParameters_v1 containerID;
      "--region"; region ] in
  match profile with
  | Some p => ssmCmd ++ ["--profile"; p]
  | None => ssmCmd
  end.

(** The control-plane lookups and session launches among some events. *)
Definition lookups_and_runs (es : list Event) : list Event :=
  filter (fun e => is_lookup e || is_Run e) es.

(** The last event is a message of the log. *)
Definition ends_with_log (es : list Event) : Prop :=
  exists pre format args, es = pre ++ [EvLog format args].

(** A launch that rests on lookups of its own: the events are the four
    lookups of one pass (tasks, task details, host instances, task details
    again) followed by the launch, and the launched command line is built from
    the task, host and container that these very answers name. *)
Inductive resolved_within (fl : Flags) (profile : option string)
    (region : string) : list Event -> Prop :=
| resolved_intro :
    forall o1 taskArn o2 task0 rest2 hostRef o3 inst instanceID o4 task1 rest4
           containerID res,
      In taskArn (ecs.TaskArns o1) ->
      ecs.Tasks o2 = task0 :: rest2 ->
      types.ContainerInstanceArn task0 = Some hostRef ->
      In inst (ecs.ContainerInstances o3) ->
      types.Ec2InstanceId inst = Some instanceID ->
      ecs.Tasks o4 = task1 :: rest4 ->
      scanContainers (types.Containers task1) (containerName fl)
        = Ret (Ok containerID) ->
      resolved_within fl profile region
        [ EvListTasks
            {| ecs.lt_Cluster := clusterName fl;
               ecs.lt_ServiceName := serviceName fl;
               ecs.lt_DesiredStatus := types.DesiredStatusRunning |} (inl o1);
          EvDescribeTasks
            {| ecs.dt_Cluster := clusterName fl; ecs.dt_Tasks := [taskArn] |}
            (inl o2);
          EvDescribeContainerInstances
            {| ecs.dci_Cluster := clusterName fl;
               ecs.dci_ContainerInstances := [hostRef] |}
            (inl o3);
          EvDescribeTasks
            {| ecs.dt_Cluster := clusterName fl; ecs.dt_Tasks := [taskArn] |}
            (inl o4);
          EvRun (ssmCmd instanceID containerID profile region) res ].

(** ** Example collaborators

    The scenario of the specification: cluster [prod], service [web]; the
    control plane knows one task [T1] on host reference [H1], which is the
    instance [I1]; the task runs the containers [app] and [sidecar]. *)

Definition example_containers : list types.Container :=
  [ {| types.Name := Some "app"; types.RuntimeId := Some "rt-123" |};
    {| types.Name := Some "sidecar"; types.RuntimeId := Some "rt-456" |} ].

Definition example_task : types.Task :=
  {| types.ContainerInstanceArn := Some "H1";
     types.Containers := example_containers |}.

Definition example_identity : CallerIdentity :=
  {| Arn := "arn:aws:iam::1:user/dev"; Account := "1"; UserId := "dev" |}.

(** Collaborators given by their answers to the three lookups and to the
    launch, each a function of the history; loading the configuration and
    the credential check succeed, and the clock ticks once per event. *)
Definition env_full (tasks : list Event -> sdk ecs.ListTasksOutput)
    (details : list Event -> sdk ecs.DescribeTasksOutput)
    (hosts : list Event -> sdk ecs.DescribeContainerInstancesOutput)
    (launch : list Event -> list string -> option error) : Env :=
  {| LoadDefaultConfig := fun _ _ _ => None;
     GetCallerIdentity := fun _ => inl example_identity;
     ListTasks := fun h _ => tasks h;
     DescribeTasks := fun h _ => details h;
     DescribeContainerInstances := fun h _ => hosts h;
     UnixNano := fun h => Z.of_nat (length h);
     Run := launch |}.

(** The same, with the scenario's task as the details of every task. *)
Definition env_with (tasks : list Event -> sdk ecs.ListTasksOutput)
    (hosts : list Event -> sdk ecs.DescribeContainerInstancesOutput)
    (launch : list Event -> list string -> option error) : Env :=
  env_full tasks (fun _ => inl {| ecs.Tasks := [example_task] |}) hosts launch.

Definition one_task : list Event -> sdk ecs.ListTasksOutput :=
  fun _ => inl {| ecs.TaskArns := ["T1"] |}.

Definition one_host : list Event -> sdk ecs.DescribeContainerInstancesOutput :=
  fun _ =>
    inl {| ecs.ContainerInstances := [ {| types.Ec2InstanceId := Some "I1" |} ] |}.

(** The session tool succeeds at once. *)
Definition env_prod : Env := env_with one_task one_host (fun _ _ => None).

(** The session tool never starts. *)
Definition env_no_session : Env :=
  env_with one_task one_host (fun _ _ => Some "exit status 255").

(** The session tool fails on its first two runs and starts on the third. *)
Definition env_flaky : Env :=
  env_with one_task one_host
    (fun h _ =>
       if (length (filter is_Run h) <? 2)%nat then Some "exit status 255"
       else None).

(** The service has no running task. *)
Definition env_no_tasks : Env :=
  env_with (fun _ => inl {| ecs.TaskArns := [] |}) one_host (fun _ _ => None).

(** The control plane knows no host instance for the reference. *)
Definition env_no_hosts : Env :=
  env_with one_task (fun _ => inl {| ecs.ContainerInstances := [] |})
    (fun _ _ => None).

(** The service runs three tasks. *)
Definition env_three : Env :=
  env_with (fun _ => inl {| ecs.TaskArns := ["T1"; "T2"; "T3"] |}) one_host
    (fun _ _ => None).

(** An outage that ends: while nothing has happened yet every call fails;
    afterwards every call succeeds and returns nothing. *)
Definition env_outage : Env :=
  env_full
    (fun h => match h with
              | [] => inr "RequestError: send request failed"
              | _ => inl {| ecs.TaskArns := [] |}
              end)
    (fun h => match h with
              | [] => inr "RequestError: send request failed"
              | _ => inl {| ecs.Tasks := [] |}
              end)
    (fun h => match h with
              | [] => inr "RequestError: send request failed"
              | _ => inl {| ecs.ContainerInstances := [] |}
              end)
    (fun _ _ => None).

(** The task list changes after every run of the session tool: task [T1]
    first, then [T2], while the first session fails and the second starts. *)
Definition env_moving : Env :=
  env_with
    (fun h =>
       if (length (filter is_Run h) <? 1)%nat
       then inl {| ecs.TaskArns := ["T1"] |}
       else inl {| ecs.TaskArns := ["T2"] |})
    (fun h =>
       if (length (filter is_Run h) <? 1)%nat
       then inl {| ecs.ContainerInstances := [ {| types.Ec2InstanceId := Some "I1" |} ] |}
       else inl {| ecs.ContainerInstances := [ {| types.Ec2InstanceId := Some "I2" |} ] |})
    (fun h _ =>
       if (length (filter is_Run h) <? 1)%nat then Some "exit status 255"
       else None).

(** Everything fails once: no host instance is known during the first pass
    (one listing of the tasks so far), the task runs no container [app]
    during the second, and the session tool never starts. *)
Definition env_unlucky : Env :=
  env_full one_task
    (fun h =>
       if (count is_ListTasks h =? 2)%nat
       then
         inl {| ecs.Tasks :=
                  [ {| types.ContainerInstanceArn := Some "H1";
                       types.Containers :=
                         [ {| types.Name := Some "sidecar";
                              types.RuntimeId := Some "rt-456" |} ] |} ] |}
       else inl {| ecs.Tasks := [example_task] |})
    (fun h =>
       if (count is_ListTasks h <? 2)%nat
       then inl {| ecs.ContainerInstances := [] |}
       else one_host h)
    (fun _ _ => Some "exit status 255").

(** A service that comes up: no task runs during the first pass, no host
    instance is known during the second, and from the third pass on
    everything is there and the session tool starts. *)
Definition env_recovering : Env :=
  env_with
    (fun h =>
       if (count is_ListTasks h =? 0)%nat
       then inl {| ecs.TaskArns := [] |}
       else one_task h)
    (fun h =>
       if (count is_ListTasks h <? 3)%nat
       then inl {| ecs.ContainerInstances := [] |}
       else one_host h)
    (fun _ _ => None).

(** A task that runs on no container instance: its details hold no host
    reference. *)
Definition env_fargate : Env :=
  env_full one_task
    (fun _ =>
       inl {| ecs.Tasks :=
                [ {| types.ContainerInstanceArn := None;
                     types.Containers := example_containers |} ] |})
    one_host (fun _ _ => None).

(** A task whose container [app] has not started, so that it has no runtime
    identifier yet, followed by a container without a name. *)
Definition pending_containers : list types.Container :=
  [ {| types.Name := Some "app"; types.RuntimeId := None |};
    {| types.Name := None; types.RuntimeId := Some "rt-789" |} ].

Definition env_pending : Env :=
  env_full one_task
    (fun _ =>
       inl {| ecs.Tasks :=
                [ {| types.ContainerInstanceArn := Some "H1";
                     types.Containers := pending_containers |} ] |})
    one_host (fun _ _ => None).

(** A host instance whose answer holds no instance identifier. *)
Definition env_unregistered : Env :=
  env_with one_task
    (fun _ =>
       inl {| ecs.ContainerInstances := [ {| types.Ec2InstanceId := None |} ] |})
    (fun _ _ => None).

(** The caller is not logged in: the identity check fails. *)
Definition env_logged_out : Env :=
  {| LoadDefaultConfig := fun _ _ _ => None;
     GetCallerIdentity := fun _ => inr "ExpiredToken";
     ListTasks := fun h _ => one_task h;
     DescribeTasks := fun _ _ => inl {| ecs.Tasks := [example_task] |};
     DescribeContainerInstances := fun h _ => one_host h;
     UnixNano := fun h => Z.of_nat (length h);
     Run := fun _ _ => None |}.

(** A small generator standing for [math/rand] in the examples: the state is
    a number, a draw is its remainder. *)
Definition toy_Seed (seed : Z) : Z := seed.
Definition toy_Intn (g n : Z) : Z * Z := (g mod n, g * 25214903917 + 11).

Definition flags_app : Flags :=
  {| clusterName := "prod"; serviceName := "web"; containerName := "app";
     profile := "" |}.

Definition flags_missing : Flags :=
  {| clusterName := "prod"; serviceName := "web"; containerName := "missing";
     profile := "" |}.

Definition flags_no_cluster : Flags :=
  {| clusterName := ""; serviceName := "web"; containerName := "app";
     profile := "" |}.

Section Program.

(** The global source of [math/rand]: [rand.Seed] replaces its state,
    [rand.Intn] draws from it and advances it. *)
Variable Source : Type.
Variable rand_Seed : Z -> Source.
Variable rand_Intn : Source -> Z -> Z * Source.

Variable env : Env.

(** What running a computation from a history and a source state gives:
    its outcome, the events it added, and the source state it leaves. *)
Record Ran (A : Type) : Type :=
  mkRan { outcome : Outcome A; emitted : list Event; source : Source }.
Arguments mkRan {A} outcome emitted source.
Arguments outcome {A} r.
Arguments emitted {A} r.
Arguments source {A} r.

Definition M (A : Type) : Type := list Event -> Source -> Ran A.

Definition ret {A : Type} (a : A) : M A :=
  fun _ g => mkRan (Ret a) [] g.

Definition bind {A B : Type} (m : M A) (f : A -> M B) : M B :=
  fun h g =>
    match m h g with
    | mkRan (Ret a) es g1 =>
        match f a (h ++ es) g1 with
        | mkRan o es' g2 => mkRan o (es ++ es') g2
        end
    | mkRan (Exit c) es g1 => mkRan (Exit c) es g1
    | mkRan (Panic msg) es g1 => mkRan (Panic msg) es g1
    end.

Notation "x <- m ;; k" := (bind m (fun x => k))
  (at level 100, m at next level, right associativity).
Notation "m ;;; k" := (bind m (fun _ => k))
  (at level 100, right associativity).

Definition emit (e : Event) : M unit :=
  fun _ g => mkRan (Ret tt) [e] g.

(** *** The collaborators' operations *)

Definition svc_ListTasks (i : ecs.ListTasksInput) : M (sdk ecs.ListTasksOutput) :=
  fun h g => let r := ListTasks env h i in mkRan (Ret r) [EvListTasks i r] g.

Definition svc_DescribeTasks (i : ecs.DescribeTasksInput)
    : M (sdk ecs.DescribeTasksOutput) :=
  fun h g =>
    let r := DescribeTasks env h i in mkRan (Ret r) [EvDescribeTasks i r] g.

Definition svc_DescribeContainerInstances
    (i : ecs.DescribeContainerInstancesInput)
    : M (sdk ecs.DescribeContainerInstancesOutput) :=
  fun h g =>
    let r := DescribeContainerInstances env h i in
    mkRan (Ret r) [EvDescribeContainerInstances i r] g.

Definition config_LoadDefaultConfig (sharedProfile : option string)
    (region : string) : M (option error) :=
  fun h g =>
    let r := LoadDefaultConfig env h sharedProfile region in
    mkRan (Ret r) [EvLoadDefaultConfig sharedProfile region r] g.

Definition sts_GetCallerIdentity : M (sdk CallerIdentity) :=
  fun h g =>
    let r := GetCallerIdentity env h in mkRan (Ret r) [EvGetCallerIdentity r] g.

Definition time_Now_UnixNano : M Z :=
  fun h g => let t := UnixNano env h in mkRan (Ret t) [EvNow t] g.

Definition time_Sleep (d : Z) : M unit := emit (EvSleep d).

Definition log_Printf (format : string) (args : list Arg) : M unit :=
  emit (EvLog format args).

Definition fmt_Printf (format : string) (args : list Arg) : M unit :=
  emit (EvPrint format args).

Definition log_Println (msg : string) : M unit := emit (EvLog msg []).

(** [log.Fatalf] and [log.Fatal]: the message, then [os.Exit(1)]. *)
Definition log_Fatalf {A : Type} (format : string) (args : list Arg) : M A :=
  fun _ g => mkRan (Exit 1) [EvLog format args] g.

Definition log_Fatal {A : Type} (msg : string) : M A := log_Fatalf msg [].

(** [exec.Command(argv[0], argv[1:]...)] followed by [cmd.Run()], with the
    standard streams handed to the child. *)
Definition cmd_Run (argv : list string) : M (option error) :=
  fun h g => let r := Run env h argv in mkRan (Ret r) [EvRun argv r] g.

Definition rand_seed (seed : Z) : M unit :=
  fun _ _ => mkRan (Ret tt) [] (rand_Seed seed).

(** [rand.Intn] panics when its argument is not positive. *)
Definition rand_intn (n : Z) : M Z :=
  fun _ g =>
    if n <=? 0 then mkRan (Panic "invalid argument to Intn") [] g
    else mkRan (Ret (fst (rand_Intn g n))) [] (snd (rand_Intn g n)).

(** The index expression [s[k]]; out of range it panics. *)
Definition index {A : Type} (s : list A) (k : Z) : M A :=
  fun _ g =>
    if k <? 0 then mkRan (Panic "index out of range") [] g
    else
      match nth_error s (Z.to_nat k) with
      | Some a => mkRan (Ret a) [] g
      | None => mkRan (Panic "index out of range") [] g
      end.

Definition len {A : Type} (s : list A) : Z := Z.of_nat (length s).

(** The dereference [*p]; on a nil pointer it panics. *)
Definition deref {A : Type} (p : option A) : M A :=
  fun _ g =>
    match p with
    | Some a => mkRan (Ret a) [] g
    | None => mkRan (Panic nil_dereference) [] g
    end.

(** A step that touches no collaborator, by the way it ends. *)
Definition pure {A : Type} (o : Outcome A) : M A := fun _ g => mkRan o [] g.

(** *** The resolvers *)

Definition getECSTask (clusterName serviceName : string)
    : M (result (string * string)) :=
  let input :=
    {| ecs.lt_Cluster := clusterName;
       ecs.lt_ServiceName := serviceName;
       ecs.lt_DesiredStatus := types.DesiredStatusRunning |} in
  r <- svc_ListTasks input ;;
  match r with
  | inr _ => ret (Err (NoRunningTasks serviceName))
  | inl result =>
      if len (ecs.TaskArns result) =? 0
      then ret (Err (NoRunningTasks serviceName))
      else if len (ecs.TaskArns result) =? 0
      then ret (Err (NoRunningTasks serviceName))
      else
        now <- time_Now_UnixNano ;;
        rand_seed now ;;;
        k <- rand_intn (len (ecs.TaskArns result)) ;;
        taskArn <- index (ecs.TaskArns result) k ;;
        let describeInput :=
          {| ecs.dt_Cluster := clusterName; ecs.dt_Tasks := [taskArn] |} in
        d <- svc_DescribeTasks describeInput ;;
        match d with
        | inr _ => ret (Err DescribeFailed)
        | inl describeResult =>
            match ecs.Tasks describeResult with
            | [] => ret (Err DescribeFailed)
            | task0 :: _ =>
                let containerInstanceArn := types.ContainerInstanceArn task0 in
                hostRef <- deref containerInstanceArn ;;
                ret (Ok (taskArn, hostRef))
            end
        end
  end.

Definition getEC2InstanceID (clusterName containerInstanceArn : string)
    : M (result string) :=
  let input :=
    {| ecs.dci_Cluster := clusterName;
       ecs.dci_ContainerInstances := [containerInstanceArn] |} in
  r <- svc_DescribeContainerInstances input ;;
  match r with
  | inr _ => ret (Err DescribeInstanceFailed)
  | inl result =>
      if len (ecs.ContainerInstances result) =? 0
      then ret (Err DescribeInstanceFailed)
      else if len (ecs.ContainerInstances result) =? 0
      then ret (Err (NoHostInstances clusterName))
      else
        now <- time_Now_UnixNano ;;
        rand_seed now ;;;
        k <- rand_intn (len (ecs.ContainerInstances result)) ;;
        selectedInstance <- index (ecs.ContainerInstances result) k ;;
        instanceID <- deref (types.Ec2InstanceId selectedInstance) ;;
        ret (Ok instanceID)
  end.

Definition getContainerID (clusterName taskArn containerName : string)
    : M (result string) :=
  let describeInput :=
    {| ecs.dt_Cluster := clusterName; ecs.dt_Tasks := [taskArn] |} in
  d <- svc_DescribeTasks describeInput ;;
  match d with
  | inr _ => ret (Err DescribeFailed)
  | inl describeResult =>
      match ecs.Tasks describeResult with
      | [] => ret (Err DescribeFailed)
      | task0 :: _ =>
          pure (scanContainers (types.Containers task0) containerName)
      end
  end.

Definition startSSMSession (instanceID containerID : string)
    (profile : option string) (region : string) : M (option error) :=
  cmd_Run (ssmCmd instanceID containerID profile region).

Definition validateAWSCredentials : M (option error) :=
  r <- sts_GetCallerIdentity ;;
  match r with
  | inr _ =>
      ret (Some "unable to authenticate with AWS, please check you are logged in")
  | inl identityOutput =>
      fmt_Printf
        ("Authenticated as ARN: %s (Account: %s, UserId: %s)" ++ newline)%string
        [ ArgString (Arn identityOutput);
          ArgString (Account identityOutput);
          ArgString (UserId identityOutput) ] ;;;
      ret None
  end.

(** *** The retry loop of [main] *)

Definition maxRetries : Z := 3.
Definition backoffDelay : Z := time_Second * 5.

(** How one pass through the body of the [for] loop ends: with [break], or
    by reaching the post statement [i++] ([continue] or the end of the
    body). *)
Inductive flow : Type := Break | Next.

(** The body of the loop at index [i]; [profile] is the [*string] that
    [flag.String] returned. *)
Definition attempt (fl : Flags) (profile : option string) (region : string)
    (i : Z) : M flow :=
  r1 <- getECSTask (clusterName fl) (serviceName fl) ;;
  match r1 with
  | Err err =>
      if i =? maxRetries - 1
      then log_Fatalf "Error getting ECS task: %v. Maximum retries reached."
             [ArgError err]
      else
        log_Printf "No running tasks found for service. Retrying in %v..."
          [ArgDuration backoffDelay] ;;;
        time_Sleep backoffDelay ;;;
        ret Next
  | Ok (taskArn, containerInstanceArn) =>
      log_Printf ("Found task ARN: %s" ++ newline)%string
        [ArgString taskArn] ;;;
      r2 <- getEC2InstanceID (clusterName fl) containerInstanceArn ;;
      match r2 with
      | Err err =>
          if i =? maxRetries - 1
          then log_Fatalf
                 "Error getting EC2 instance ID: %v. Maximum retries reached."
                 [ArgError err]
          else
            log_Printf "Error getting EC2 instance ID. Retrying in %v..."
              [ArgDuration backoffDelay] ;;;
            time_Sleep backoffDelay ;;;
            ret Next
      | Ok instanceID =>
          log_Printf ("Found EC2 instance ID: %s" ++ newline)%string
            [ArgString instanceID] ;;;
          r3 <- getContainerID (clusterName fl) taskArn (containerName fl) ;;
          match r3 with
          | Err err =>
              if i =? maxRetries - 1
              then log_Fatalf
                     "Error getting container ID: %v. Maximum retries reached."
                     [ArgError err]
              else
                log_Printf "Error getting container ID. Retrying in %v..."
                  [ArgDuration backoffDelay] ;;;
                time_Sleep backoffDelay ;;;
                ret Next
          | Ok containerID =>
              log_Printf ("Found container ID: %s" ++ newline)%string
                [ArgString containerID] ;;;
              log_Printf "Attempting to start SSM session (Attempt %d/%d)..."
                [ArgInt (i + 1); ArgInt maxRetries] ;;;
              err <- startSSMSession instanceID containerID profile region ;;
              match err with
              | None =>
                  log_Printf "SSM session started successfully." [] ;;;
                  ret Break
              | Some e =>
                  log_Printf "Failed to start SSM session: %v" [ArgError e] ;;;
                  (if i <? maxRetries - 1
                   then
                     log_Printf
                       "Retrying with a new ECS task and container instance in %v..."
                       [ArgDuration backoffDelay] ;;;
                     time_Sleep backoffDelay
                   else ret tt) ;;;
                  ret Next
              end
          end
      end
  end.

(** [for i := lo; i < hi; i++ { body }] for a body that does not assign to
    [i], by recursion on the indices left; the result tells whether the loop
    was left by [break]. *)
Fixpoint for_range (indices : list Z) (body : Z -> M flow) : M bool :=
  match indices with
  | [] => ret false
  | i :: rest =>
      c <- body i ;;
      match c with
      | Break => ret true
      | Next => for_range rest body
      end
  end.

(** The indices [0 .. n-1] of a counted loop. *)
Definition upto (n : Z) : list Z := map Z.of_nat (seq 0 (Z.to_nat n)).

(** Lines 151-213 of [main]: the loop and the check of [retrySuccess]. *)
Definition retryController (fl : Flags) (profile : option string)
    (region : string) : M unit :=
  retrySuccess <- for_range (upto maxRetries) (attempt fl profile region) ;;
  if negb retrySuccess
  then log_Fatalf "Failed to start SSM session after %d attempts."
         [ArgInt maxRetries]
  else ret tt.

Definition usage : string :=
  "Usage: docker-connector --cluster <cluster-name> --service <service-name> --container <container-name> [--profile <aws-profile>]".

Definition main (fl : Flags) : M unit :=
  (* flag.String never returns nil: the pointer handed on is the address of
     the flag variable, whatever the flag holds. *)
  let profilePtr := Some (profile fl) in
  if String.eqb (serviceName fl) "" || String.eqb (containerName fl) ""
  then log_Fatal usage
  else
    let region := "eu-west-2" in
    cfgErr <-
      (if negb (String.eqb (profile fl) "")
       then config_LoadDefaultConfig (Some (profile fl)) region
       else config_LoadDefaultConfig None region) ;;
    match cfgErr with
    | Some err => log_Fatalf "Unable to load AWS config: %v" [ArgError err]
    | None =>
        v <- validateAWSCredentials ;;
        match v with
        | Some err =>
            log_Fatalf "AWS authentication failed: %v" [ArgError err]
        | None => retryController fl profilePtr region
        end
    end.

(** *** The first version of the program ([part_000])

    The first version takes the first task and the first host instance, has
    no credential check and no retry: every error ends the process.  Its
    [getContainerID] is the one above.  The file holds this version twice;
    the second copy differs in its comments and in the usage message, which
    is a parameter here. *)

Definition getECSTask_v1 (clusterName serviceName : string)
    : M (result (string * string)) :=
  let input :=
    {| ecs.lt_Cluster := clusterName;
       ecs.lt_ServiceName := serviceName;
       ecs.lt_DesiredStatus := types.DesiredStatusRunning |} in
  r <- svc_ListTasks input ;;
  match r with
  | inr _ => ret (Err (NoRunningTasks serviceName))
  | inl result =>
      if len (ecs.TaskArns result) =? 0
      then ret (Err (NoRunningTasks serviceName))
      else
        taskArn <- index (ecs.TaskArns result) 0 ;;
        let describeInput :=
          {| ecs.dt_Cluster := clusterName; ecs.dt_Tasks := [taskArn] |} in
        d <- svc_DescribeTasks describeInput ;;
        match d with
        | inr _ => ret (Err DescribeFailed)
        | inl describeResult =>
            match ecs.Tasks describeResult with
            | [] => ret (Err DescribeFailed)
            | task0 :: _ =>
                let containerInstanceArn := types.ContainerInstanceArn task0 in
                hostRef <- deref containerInstanceArn ;;
                ret (Ok (taskArn, hostRef))
            end
        end
  end.

Definition getEC2InstanceID_v1 (clusterName containerInstanceArn : string)
    : M (result string) :=
  let input :=
    {| ecs.dci_Cluster := clusterName;
       ecs.dci_ContainerInstances := [containerInstanceArn] |} in
  r <- svc_DescribeContainerInstances input ;;
  match r with
  | inr _ => ret (Err DescribeInstanceFailed)
  | inl result =>
      if len (ecs.ContainerInstances result) =? 0
      then ret (Err DescribeInstanceFailed)
      else
        instance0 <- index (ecs.ContainerInstances result) 0 ;;
        instanceID <- deref (types.Ec2InstanceId instance0) ;;
        ret (Ok instanceID)
  end.

Definition startSSMSession_v1 (instanceID containerID : string)
    (profile : option string) (region : string) : M (option error) :=
  cmd_Run (ssmCmd_v1 instanceID containerID profile region).

Definition usage_go_run : string :=
  "Usage: go run main.go --cluster <cluster-name> --service <service-name> --container <container-name> [--profile <aws-profile>]".

Definition main_v1 (usageMessage : string) (fl : Flags) : M unit :=
  let profilePtr := Some (profile fl) in
  if String.eqb (serviceName fl) "" || String.eqb (containerName fl) ""
  then log_Fatal usageMessage
  else
    let region := "eu-west-2" in
    cfgErr <-
      (if negb (String.eqb (profile fl) "")
       then config_LoadDefaultConfig (Some (profile fl)) region
       else config_LoadDefaultConfig None region) ;;
    match cfgErr with
    | Some err => log_Fatalf "Unable to load AWS config: %v" [ArgError err]
    | None =>
        r1 <- getECSTask_v1 (clusterName fl) (serviceName fl) ;;
        match r1 with
        | Err err => log_Fatalf "Error getting ECS task: %v" [ArgError err]
        | Ok (taskArn, containerInstanceArn) =>
            fmt_Printf ("Found task ARN: %s" ++ newline)%string
              [ArgString taskArn] ;;;
            r2 <- getEC2InstanceID_v1 (clusterName fl) containerInstanceArn ;;
            match r2 with
            | Err err =>
                log_Fatalf "Error getting EC2 instance ID: %v" [ArgError err]
            | Ok instanceID =>
                fmt_Printf ("Found EC2 instance ID: %s" ++ newline)%string
                  [ArgString instanceID] ;;;
                r3 <- getContainerID (clusterName fl) taskArn
                        (containerName fl) ;;
                match r3 with
                | Err err =>
                    log_Fatalf "Error getting container ID: %v" [ArgError err]
                | Ok containerID =>
                    fmt_Printf ("Found container ID: %s" ++ newline)%string
                      [ArgString containerID] ;;;
                    err <- startSSMSession_v1 instanceID containerID
                             profilePtr region ;;
                    match err with
                    | Some e =>
                        log_Fatalf "Error starting SSM session: %v"
                          [ArgError e]
                    | None => ret tt
                    end
                end
            end
        end
    end.

(** A pass through the loop body fails when the loop goes on to the next
    index or the process exits; it succeeds when it leaves the loop. *)
Definition fails (r : Ran flow) : Prop :=
  outcome r = Ret Next \/ exists c, outcome r = Exit c.

Definition succeeds (r : Ran flow) : Prop := outcome r = Ret Break.

(** What the resolvers and the session tool return in the pass at index [i]
    that starts from the history [h] and the source state [g], each called
    in the state the pass has reached by then: [Some err] when a resolver
    returns the error [err] or the session tool returns it, [None] when the
    three resolvers return values and the session tool returns no error. *)
Inductive pass_result (fl : Flags) (profile : option string) (region : string)
    (i : Z) (h : list Event) (g : Source) : option error -> Prop :=
| task_failed :
    forall err,
      outcome (getECSTask (clusterName fl) (serviceName fl) h g)
      = Ret (Err err) ->
      pass_result fl profile region i h g (Some err)
| host_failed :
    forall t taskArn hostRef h1 err,
      t = getECSTask (clusterName fl) (serviceName fl) h g ->
      outcome t = Ret (Ok (taskArn, hostRef)) ->
      h1 = (h ++ emitted t)
           ++ [EvLog ("Found task ARN: %s" ++ newline)%string
                 [ArgString taskArn]] ->
      outcome (getEC2InstanceID (clusterName fl) hostRef h1 (source t))
      = Ret (Err err) ->
      pass_result fl profile region i h g (Some err)
| container_failed :
    forall t taskArn hostRef h1 host instanceID h2 err,
      t = getECSTask (clusterName fl) (serviceName fl) h g ->
      outcome t = Ret (Ok (taskArn, hostRef)) ->
      h1 = (h ++ emitted t)
           ++ [EvLog ("Found task ARN: %s" ++ newline)%string
                 [ArgString taskArn]] ->
      host = getEC2InstanceID (clusterName fl) hostRef h1 (source t) ->
      outcome host = Ret (Ok instanceID) ->
      h2 = (h1 ++ emitted host)
           ++ [EvLog ("Found EC2 instance ID: %s" ++ newline)%string
                 [ArgString instanceID]] ->
      outcome (getContainerID (clusterName fl) taskArn (containerName fl) h2
                 (source host))
      = Ret (Err err) ->
      pass_result fl profile region i h g (Some err)
| session_run :
    forall t taskArn hostRef h1 host instanceID h2 c containerID h3 res,
      t = getECSTask (clusterName fl) (serviceName fl) h g ->
      outcome t = Ret (Ok (taskArn, hostRef)) ->
      h1 = (h ++ emitted t)
           ++ [EvLog ("Found task ARN: %s" ++ newline)%string
                 [ArgString taskArn]] ->
      host = getEC2InstanceID (clusterName fl) hostRef h1 (source t) ->
      outcome host = Ret (Ok instanceID) ->
      h2 = (h1 ++ emitted host)
           ++ [EvLog ("Found EC2 instance ID: %s" ++ newline)%string
                 [ArgString instanceID]] ->
      c = getContainerID (clusterName fl) taskArn (containerName fl) h2
            (source host) ->
      outcome c = Ret (Ok containerID) ->
      h3 = ((h2 ++ emitted c)
            ++ [EvLog ("Found container ID: %s" ++ newline)%string
                  [ArgString containerID]])
           ++ [EvLog "Attempting to start SSM session (Attempt %d/%d)..."
                 [ArgInt (i + 1); ArgInt maxRetries]] ->
      outcome (startSSMSession instanceID containerID profile region h3
                 (source c))
      = Ret res ->
      pass_result fl profile region i h g res.

(** ** Properties *)

(** [rand.Intn(n)] returns a number of the half-open interval [[0,n)]. *)
Hypothesis rand_Intn_range :
  forall g n, 0 < n -> 0 <= fst (rand_Intn g n) < n.

Lemma count_app (p : Event -> bool) (a b : list Event) :
  count p (a ++ b) = (count p a + count p b)%nat.
Proof. unfold count. now rewrite filter_app, length_app. Qed.

Lemma len_nonneg {A : Type} (s : list A) : 0 <= len s.
Proof. unfold len. lia. Qed.

Lemma len_zero_iff {A : Type} (s : list A) : len s = 0 <-> s = [].
Proof.
  unfold len. destruct s as [|a s]; cbn [length]; split; intro H;
    try reflexivity; try discriminate; lia.
Qed.

(** The scan returns or panics; it never ends the process. *)
Lemma scanContainers_no_exit (containers : list types.Container)
    (name : string) (code : Z) :
  scanContainers containers name <> Exit code.
Proof.
  induction containers as [|c containers IH]; cbn [scanContainers].
  - discriminate.
  - destruct (types.Name c) as [n | ]; [ | discriminate].
    destruct (String.eqb n name); [ | exact IH].
    destruct (types.RuntimeId c); discriminate.
Qed.


(** Case analysis on the innermost scrutinee of the goal. *)
Ltac break_match :=
  match goal with
  | |- context [match ?x with _ => _ end] =>
      lazymatch x with
      | context [match _ with _ => _ end] => fail
      | _ => destruct x eqn:?
      end
  end.

Ltac run_program :=
  cbv beta iota zeta delta
    [attempt getECSTask getEC2InstanceID getContainerID startSSMSession
     bind ret emit svc_ListTasks svc_DescribeTasks
     svc_DescribeContainerInstances time_Now_UnixNano time_Sleep log_Printf
     log_Println log_Fatalf cmd_Run rand_seed rand_intn index deref pure
     outcome emitted source];
  repeat (break_match; cbv beta iota delta [outcome emitted source]);
  try (exfalso; eapply scanContainers_no_exit; eassumption).

(** Boolean tests on integers, as the propositions they decide. *)
Ltac reflect_tests :=
  repeat match goal with
    | H : (_ =? _) = true |- _ => apply Z.eqb_eq in H
    | H : (_ =? _) = false |- _ => apply Z.eqb_neq in H
    | H : (_ <? _) = true |- _ => apply Z.ltb_lt in H
    | H : (_ <? _) = false |- _ => apply Z.ltb_ge in H
    | H : (_ <=? _) = true |- _ => apply Z.leb_le in H
    | H : (_ <=? _) = false |- _ => apply Z.leb_gt in H
    end.

(** The cases of a membership in a list that is written out. *)
Ltac in_cases H :=
  cbn in H;
  repeat match type of H with
    | _ \/ _ => destruct H as [H | H]
    end;
  try contradiction; try discriminate H.

(** What one pass through the loop body leaves behind, by the way it ends. *)
Lemma attempt_sleeps (fl : Flags) (p : option string) (region : string)
    (i : Z) (h : list Event) (g : Source) :
  i <= maxRetries - 1 ->
  let r := attempt fl p region i h g in
  match outcome r with
  | Ret Break => count is_sleep (emitted r) = 0%nat
  | Ret Next =>
      count is_sleep (emitted r) = if i <? maxRetries - 1 then 1%nat else 0%nat
  | Exit c => c = 1 /\ i = maxRetries - 1 /\ count is_sleep (emitted r) = 0%nat
  | Panic _ => True
  end.
Proof.
  intros Hi. run_program; reflect_tests; unfold maxRetries in *;
    try exact I; try reflexivity; try lia; auto.
Qed.

Lemma attempt_sleep_duration (fl : Flags) (p : option string)
    (region : string) (i : Z) (h : list Event) (g : Source) (d : Z) :
  In (EvSleep d) (emitted (attempt fl p region i h g)) -> d = backoffDelay.
Proof.
  run_program; intros H; in_cases H; injection H as <-; reflexivity.
Qed.

Lemma attempt_one_ListTasks (fl : Flags) (p : option string)
    (region : string) (i : Z) (h : list Event) (g : Source) :
  count is_ListTasks (emitted (attempt fl p region i h g)) = 1%nat.
Proof. run_program; reflexivity. Qed.

(** A pass leaves the loop exactly when the session tool ran and returned
    no error. *)
Lemma attempt_succeeds_iff_session (fl : Flags) (p : option string)
    (region : string) (i : Z) (h : list Event) (g : Source) :
  succeeds (attempt fl p region i h g) <->
  exists argv, In (EvRun argv None) (emitted (attempt fl p region i h g)).
Proof.
  unfold succeeds. run_program; split.
  all: try (intros H; discriminate H).
  all: try (intros _; reflexivity).
  all: try (intros (argv & H); in_cases H; fail).
  all: intros _; eexists; cbn; eauto 20.
Qed.

(** A pass fails exactly when, without a panic, it ended before launching
    the session tool (a resolver returned an error) or the session tool
    returned an error. *)
Lemma attempt_fails_iff (fl : Flags) (p : option string) (region : string)
    (i : Z) (h : list Event) (g : Source) :
  fails (attempt fl p region i h g) <->
  (count is_Run (emitted (attempt fl p region i h g)) = 0%nat
   \/ exists argv e,
        In (EvRun argv (Some e)) (emitted (attempt fl p region i h g)))
  /\ forall msg, outcome (attempt fl p region i h g) <> Panic msg.
Proof.
  unfold fails. run_program; split.
  all: try (intros [Hf | (code & Hf)]; discriminate Hf).
  all: try (intros [_ Hp]; exfalso; eapply Hp; reflexivity).
  all: try (intros [[Hf | (argv & err & Hf)] _];
            [cbn in Hf; discriminate Hf | in_cases Hf]; fail).
  all: try solve [intros _; first [left; reflexivity
                                  | right; eexists; reflexivity]].
  all: intros _; split; [ | discriminate].
  all: first [ left; reflexivity
             | right; do 2 eexists; cbn;
               repeat (first [left; reflexivity | right]) ].
Qed.

(** Whenever a pass launches the session tool, the launch rests on the
    lookups of that pass. *)
Lemma attempt_run_resolved (fl : Flags) (p : option string) (region : string)
    (i : Z) (h : list Event) (g : Source) (argv : list string)
    (res : option error) :
  In (EvRun argv res) (emitted (attempt fl p region i h g)) ->
  resolved_within fl p region
    (lookups_and_runs (emitted (attempt fl p region i h g))).
Proof.
  run_program; intros H; try (in_cases H; fail).
  all: cbn; econstructor; eauto using nth_error_In.
Qed.

(** *** The resolvers *)

Lemma scanContainers_first_match (containers pre post : list types.Container)
    (c : types.Container) (name runtimeId : string) :
  containers = pre ++ c :: post ->
  (forall c', In c' pre -> exists n, types.Name c' = Some n /\ n <> name) ->
  types.Name c = Some name ->
  types.RuntimeId c = Some runtimeId ->
  scanContainers containers name = Ret (Ok runtimeId).
Proof.
  intros -> Hpre Hc Hid. induction pre as [|c0 pre IH]; cbn.
  - rewrite Hc, String.eqb_refl, Hid. reflexivity.
  - destruct (Hpre c0 (or_introl eq_refl)) as (n & -> & Hn).
    apply String.eqb_neq in Hn. rewrite Hn.
    apply IH. intros c' Hin. apply Hpre. now right.
Qed.

Lemma scanContainers_no_match (containers : list types.Container)
    (name : string) :
  (forall c, In c containers -> exists n, types.Name c = Some n /\ n <> name) ->
  scanContainers containers name = Ret (Err (ContainerNotFound name)).
Proof.
  induction containers as [|c0 containers IH]; intros Hnone; cbn.
  - reflexivity.
  - destruct (Hnone c0 (or_introl eq_refl)) as (n & -> & Hn).
    apply String.eqb_neq in Hn. rewrite Hn.
    apply IH. intros c Hin. apply Hnone. now right.
Qed.

(** [getContainerID], by the answer to its one call. *)
Lemma getContainerID_eq (cluster taskArn name : string) (h : list Event)
    (g : Source) :
  let describeInput :=
    {| ecs.dt_Cluster := cluster; ecs.dt_Tasks := [taskArn] |} in
  let d := DescribeTasks env h describeInput in
  getContainerID cluster taskArn name h g
  = mkRan
      match d with
      | inr _ => Ret (Err DescribeFailed)
      | inl describeResult =>
          match ecs.Tasks describeResult with
          | [] => Ret (Err DescribeFailed)
          | task0 :: _ => scanContainers (types.Containers task0) name
          end
      end
      [EvDescribeTasks describeInput d] g.
Proof.
  cbv zeta. unfold getContainerID, bind, svc_DescribeTasks, ret, pure.
  destruct (DescribeTasks env h _) as [d | e]; [ | reflexivity].
  destruct (ecs.Tasks d) as [|task0 rest]; [reflexivity | ].
  destruct (scanContainers _ name) as [[runtimeId | err] | code | msg];
    reflexivity.
Qed.

(** [getEC2InstanceID] when the call fails or returns no instance: the second
    test of the length is never reached with an empty list. *)
Lemma getEC2InstanceID_no_data (cluster hostRef : string) (h : list Event)
    (g : Source) :
  let input :=
    {| ecs.dci_Cluster := cluster;
       ecs.dci_ContainerInstances := [hostRef] |} in
  let d := DescribeContainerInstances env h input in
  match d with
  | inr _ => True
  | inl result => ecs.ContainerInstances result = []
  end ->
  getEC2InstanceID cluster hostRef h g
  = mkRan (Ret (Err DescribeInstanceFailed))
      [EvDescribeContainerInstances input d] g.
Proof.
  cbv zeta. unfold getEC2InstanceID, bind, svc_DescribeContainerInstances, ret.
  destruct (DescribeContainerInstances env h _) as [d | e]; [ | reflexivity].
  intros ->. reflexivity.
Qed.

(** [getECSTask] when the call fails or returns no task. *)
Lemma getECSTask_no_data (cluster service : string) (h : list Event)
    (g : Source) :
  let input :=
    {| ecs.lt_Cluster := cluster;
       ecs.lt_ServiceName := service;
       ecs.lt_DesiredStatus := types.DesiredStatusRunning |} in
  let d := ListTasks env h input in
  match d with
  | inr _ => True
  | inl result => ecs.TaskArns result = []
  end ->
  getECSTask cluster service h g
  = mkRan (Ret (Err (NoRunningTasks service))) [EvListTasks input d] g.
Proof.
  cbv zeta. unfold getECSTask, bind, svc_ListTasks, ret.
  destruct (ListTasks env h _) as [d | e]; [ | reflexivity].
  intros ->. reflexivity.
Qed.

(** The draw of [rand.Intn] over a non-empty slice is a valid index. *)
Lemma draw_in_range {A : Type} (s : list A) (g : Source) :
  s <> [] ->
  let k := fst (rand_Intn g (len s)) in
  0 <= k < len s /\ exists a, nth_error s (Z.to_nat k) = Some a.
Proof.
  intros Hs k.
  assert (Hlen : 0 < len s).
  { pose proof (len_nonneg s). destruct (Z.eq_dec (len s) 0) as [H0 | H0];
      [apply len_zero_iff in H0; contradiction | lia]. }
  pose proof (rand_Intn_range g (len s) Hlen) as Hk. fold k in Hk.
  split; [exact Hk | ].
  destruct (nth_error s (Z.to_nat k)) as [a | ] eqn:Hn; [now exists a | ].
  apply nth_error_None in Hn. unfold len in Hk. lia.
Qed.

(** [getECSTask] when the list of running tasks is not empty and the draw is
    a valid index: the source is seeded from the clock, the task at the drawn
    index is described, and the answer decides the result. *)
Lemma getECSTask_nonempty (cluster service : string) (h : list Event)
    (g : Source) (out : ecs.ListTasksOutput) (taskArn : string) :
  let input :=
    {| ecs.lt_Cluster := cluster;
       ecs.lt_ServiceName := service;
       ecs.lt_DesiredStatus := types.DesiredStatusRunning |} in
  let now := UnixNano env (h ++ [EvListTasks input (inl out)]) in
  let n := len (ecs.TaskArns out) in
  let k := fst (rand_Intn (rand_Seed now) n) in
  let describeInput :=
    {| ecs.dt_Cluster := cluster; ecs.dt_Tasks := [taskArn] |} in
  let d :=
    DescribeTasks env (h ++ [EvListTasks input (inl out); EvNow now])
      describeInput in
  ListTasks env h input = inl out ->
  ecs.TaskArns out <> [] ->
  0 <= k ->
  nth_error (ecs.TaskArns out) (Z.to_nat k) = Some taskArn ->
  getECSTask cluster service h g
  = mkRan
      match d with
      | inr _ => Ret (Err DescribeFailed)
      | inl describeResult =>
          match ecs.Tasks describeResult with
          | [] => Ret (Err DescribeFailed)
          | task0 :: _ =>
              match types.ContainerInstanceArn task0 with
              | Some hostRef => Ret (Ok (taskArn, hostRef))
              | None => Panic nil_dereference
              end
          end
      end
      [EvListTasks input (inl out); EvNow now; EvDescribeTasks describeInput d]
      (snd (rand_Intn (rand_Seed now) n)).
Proof.
  intros input now n k describeInput d Hlist Hne Hk Hnth.
  assert (Hn : (n =? 0) = false).
  { apply Z.eqb_neq. intros H0. apply len_zero_iff in H0. contradiction. }
  assert (Hpos : (n <=? 0) = false).
  { apply Z.leb_gt. pose proof (len_nonneg (ecs.TaskArns out)).
    apply Z.eqb_neq in Hn. fold n in H. lia. }
  assert (Hk0 : (k <? 0) = false) by (apply Z.ltb_ge; exact Hk).
  unfold getECSTask, bind, svc_ListTasks, ret, time_Now_UnixNano, rand_seed,
    rand_intn, index, svc_DescribeTasks, deref.
  fold input. rewrite Hlist. fold n. rewrite Hn, Hpos.
  fold now. fold k. rewrite Hk0, Hnth.
  rewrite !app_nil_r, <- !app_assoc. cbn [app]. fold describeInput. fold d.
  destruct d as [dr | e]; [ | reflexivity].
  destruct (ecs.Tasks dr) as [|task0 rest]; [reflexivity | ].
  destruct (types.ContainerInstanceArn task0); reflexivity.
Qed.

(** C1 (amended): where every container that the scan meets before the first
    one of the name supplied carries a name, and that first one carries a
    runtime identifier, the container resolver returns this runtime
    identifier: the one of the first container, in list order, whose name
    equals the name supplied; where every container of the list carries a
    name and none has the name supplied, it fails with [ContainerNotFound],
    whether the list is empty or not. *)
Theorem getContainerID_first_match (cluster taskArn name : string)
    (h : list Event) (g : Source) (d : ecs.DescribeTasksOutput)
    (task0 : types.Task) (rest : list types.Task) :
  DescribeTasks env h {| ecs.dt_Cluster := cluster; ecs.dt_Tasks := [taskArn] |}
    = inl d ->
  ecs.Tasks d = task0 :: rest ->
  let containers := types.Containers task0 in
  let answer := outcome (getContainerID cluster taskArn name h g) in
  (forall pre c post runtimeId,
      containers = pre ++ c :: post ->
      (forall c', In c' pre -> exists n, types.Name c' = Some n /\ n <> name) ->
      types.Name c = Some name ->
      types.RuntimeId c = Some runtimeId ->
      answer = Ret (Ok runtimeId))
  /\ ((forall c, In c containers ->
                 exists n, types.Name c = Some n /\ n <> name) ->
      answer = Ret (Err (ContainerNotFound name))).
Proof.
  intros Hd Ht containers answer.
  assert (Ha : answer = scanContainers containers name).
  { subst answer. rewrite getContainerID_eq. cbv zeta.
    rewrite Hd, Ht. reflexivity. }
  rewrite Ha. split.
  - intros pre c post runtimeId Hsplit Hpre Hc Hid.
    exact (scanContainers_first_match _ pre post c name runtimeId
             Hsplit Hpre Hc Hid).
  - intros Hnone. now apply scanContainers_no_match.
Qed.

(** C4: when the list of running tasks is empty the task resolver fails with
    [NoRunningTasks] after its one call, and the pass of the loop makes no
    further lookup: no task is described, no host instance is looked up, no
    container is looked up and no session is launched. *)
Theorem no_running_tasks_no_further_lookup (fl : Flags) (p : option string)
    (region : string) (i : Z) (h : list Event) (g : Source)
    (out : ecs.ListTasksOutput) :
  let input :=
    {| ecs.lt_Cluster := clusterName fl;
       ecs.lt_ServiceName := serviceName fl;
       ecs.lt_DesiredStatus := types.DesiredStatusRunning |} in
  ListTasks env h input = inl out ->
  ecs.TaskArns out = [] ->
  let t := getECSTask (clusterName fl) (serviceName fl) h g in
  let r := attempt fl p region i h g in
  outcome t = Ret (Err (NoRunningTasks (serviceName fl)))
  /\ emitted t = [EvListTasks input (inl out)]
  /\ lookups_and_runs (emitted r) = [EvListTasks input (inl out)]
  /\ count is_DescribeTasks (emitted r) = 0%nat
  /\ count is_DescribeContainerInstances (emitted r) = 0%nat
  /\ count is_Run (emitted r) = 0%nat
  /\ outcome r <> Ret Break.
Proof.
  intros input Hlist Hempty t r.
  assert (Ht : t = mkRan (Ret (Err (NoRunningTasks (serviceName fl))))
                     [EvListTasks input (inl out)] g).
  { subst t. rewrite getECSTask_no_data; cbv zeta; fold input; rewrite Hlist.
    - reflexivity.
    - exact Hempty. }
  assert (Hr : r = if i =? maxRetries - 1
                   then mkRan (Exit 1)
                          [EvListTasks input (inl out);
                           EvLog "Error getting ECS task: %v. Maximum retries reached."
                             [ArgError (NoRunningTasks (serviceName fl))]] g
                   else mkRan (Ret Next)
                          [EvListTasks input (inl out);
                           EvLog "No running tasks found for service. Retrying in %v..."
                             [ArgDuration backoffDelay];
                           EvSleep backoffDelay] g).
  { subst r. unfold attempt. unfold bind at 1. fold t. rewrite Ht.
    destruct (i =? maxRetries - 1); reflexivity. }
  rewrite Ht, Hr.
  destruct (i =? maxRetries - 1); cbn; repeat split; discriminate.
Qed.

(** C5: over a non-empty list of running tasks the task resolver seeds the
    random source from the clock in this very call, draws an index with
    [rand.Intn] over the length of the list and selects the task at that
    index, so the task selected is one of the list and does not depend on the
    state the source was left in; a list of one task always yields that
    task. *)
Theorem getECSTask_selects_at_fresh_draw (cluster service : string)
    (h : list Event) (g : Source) (out : ecs.ListTasksOutput) :
  let input :=
    {| ecs.lt_Cluster := cluster;
       ecs.lt_ServiceName := service;
       ecs.lt_DesiredStatus := types.DesiredStatusRunning |} in
  ListTasks env h input = inl out ->
  ecs.TaskArns out <> [] ->
  let arns := ecs.TaskArns out in
  let now := UnixNano env (h ++ [EvListTasks input (inl out)]) in
  let k := fst (rand_Intn (rand_Seed now) (len arns)) in
  let r := getECSTask cluster service h g in
  0 <= k < len arns
  /\ exists taskArn,
       nth_error arns (Z.to_nat k) = Some taskArn
       /\ In taskArn arns
       /\ (exists d,
              emitted r
              = [ EvListTasks input (inl out); EvNow now;
                  EvDescribeTasks
                    {| ecs.dt_Cluster := cluster; ecs.dt_Tasks := [taskArn] |}
                    d ])
       /\ (forall t hostRef, outcome r = Ret (Ok (t, hostRef)) -> t = taskArn)
       /\ (forall g', getECSTask cluster service h g' = r)
       /\ (forall a, arns = [a] -> taskArn = a /\ k = 0).
Proof.
  intros input Hlist Hne arns now k r.
  destruct (draw_in_range arns (rand_Seed now) Hne) as (Hk & taskArn & Hnth).
  fold k in Hk, Hnth.
  split; [exact Hk | ]. exists taskArn.
  pose proof (fun g0 =>
                getECSTask_nonempty cluster service h g0 out taskArn
                  Hlist Hne (proj1 Hk) Hnth) as Hrun.
  cbv zeta in Hrun. fold input now arns in Hrun.
  repeat split.
  - exact Hnth.
  - eapply nth_error_In. exact Hnth.
  - subst r. rewrite Hrun. eexists. reflexivity.
  - intros t hostRef. subst r. rewrite Hrun. cbn [outcome].
    destruct (DescribeTasks env _ _) as [d | e]; [ | discriminate].
    destruct (ecs.Tasks d) as [|task0 rest]; [discriminate | ].
    destruct (types.ContainerInstanceArn task0); [ | discriminate].
    intros H. now injection H as <- _.
  - intros g'. subst r. now rewrite !Hrun.
  - subst arns. rewrite H in Hnth.
    assert (Hk0 : k = 0) by (unfold len in Hk; rewrite H in Hk; cbn in Hk; lia).
    rewrite Hk0 in Hnth. cbn in Hnth. now injection Hnth as <-.
  - unfold len in Hk. subst arns. rewrite H in Hk. cbn in Hk. lia.
Qed.

(** C9 (amended): after selecting a task from a non-empty list the task
    resolver asks for the details of that task; when the answer holds no task
    it fails with [DescribeFailed]; when the first task of the answer carries
    a host reference, it returns the identifier of the selected task with
    that host reference. *)
Theorem getECSTask_describes_selected_task (cluster service : string)
    (h : list Event) (g : Source) (out : ecs.ListTasksOutput) :
  let input :=
    {| ecs.lt_Cluster := cluster;
       ecs.lt_ServiceName := service;
       ecs.lt_DesiredStatus := types.DesiredStatusRunning |} in
  ListTasks env h input = inl out ->
  ecs.TaskArns out <> [] ->
  let now := UnixNano env (h ++ [EvListTasks input (inl out)]) in
  let k := fst (rand_Intn (rand_Seed now) (len (ecs.TaskArns out))) in
  let r := getECSTask cluster service h g in
  exists taskArn,
    nth_error (ecs.TaskArns out) (Z.to_nat k) = Some taskArn
    /\ let describeInput :=
         {| ecs.dt_Cluster := cluster; ecs.dt_Tasks := [taskArn] |} in
       let d :=
         DescribeTasks env (h ++ [EvListTasks input (inl out); EvNow now])
           describeInput in
       emitted r
       = [EvListTasks input (inl out); EvNow now; EvDescribeTasks describeInput d]
       /\ (forall describeResult,
              d = inl describeResult ->
              ecs.Tasks describeResult = [] ->
              outcome r = Ret (Err DescribeFailed))
       /\ (forall e, d = inr e -> outcome r = Ret (Err DescribeFailed))
       /\ (forall describeResult task0 rest hostRef,
              d = inl describeResult ->
              ecs.Tasks describeResult = task0 :: rest ->
              types.ContainerInstanceArn task0 = Some hostRef ->
              outcome r = Ret (Ok (taskArn, hostRef))).
Proof.
  intros input Hlist Hne now k r.
  destruct (draw_in_range (ecs.TaskArns out) (rand_Seed now) Hne)
    as (Hk & taskArn & Hnth).
  fold k in Hk, Hnth. exists taskArn. split; [exact Hnth | ].
  pose proof (getECSTask_nonempty cluster service h g out taskArn
                Hlist Hne (proj1 Hk) Hnth) as Hrun.
  cbv zeta in Hrun. fold input now in Hrun. fold r in Hrun.
  cbv zeta. rewrite Hrun. cbn [outcome emitted]. repeat split.
  - intros describeResult -> ->. reflexivity.
  - intros e ->. reflexivity.
  - intros describeResult task0 rest hostRef -> -> ->. reflexivity.
Qed.

(** C10: in each of the three resolvers a failed call of the control plane
    yields exactly the error value that an answer without data yields: the
    no-running-tasks error in the task resolver, the describe errors in the
    host and container resolvers; the error of the failed call is dropped, so
    the caller sees the same result in both cases. *)
Theorem failed_call_indistinguishable_from_empty (cluster service hostRef
    taskArn name : string) (h h' : list Event) (g g' : Source) :
  let listInput :=
    {| ecs.lt_Cluster := cluster;
       ecs.lt_ServiceName := service;
       ecs.lt_DesiredStatus := types.DesiredStatusRunning |} in
  let hostInput :=
    {| ecs.dci_Cluster := cluster;
       ecs.dci_ContainerInstances := [hostRef] |} in
  let describeInput :=
    {| ecs.dt_Cluster := cluster; ecs.dt_Tasks := [taskArn] |} in
  (forall e tasks,
      ListTasks env h listInput = inr e ->
      ListTasks env h' listInput = inl tasks ->
      ecs.TaskArns tasks = [] ->
      outcome (getECSTask cluster service h g)
      = Ret (Err (NoRunningTasks service))
      /\ outcome (getECSTask cluster service h' g')
         = outcome (getECSTask cluster service h g))
  /\ (forall e hosts,
         DescribeContainerInstances env h hostInput = inr e ->
         DescribeContainerInstances env h' hostInput = inl hosts ->
         ecs.ContainerInstances hosts = [] ->
         outcome (getEC2InstanceID cluster hostRef h g)
         = Ret (Err DescribeInstanceFailed)
         /\ outcome (getEC2InstanceID cluster hostRef h' g')
            = outcome (getEC2InstanceID cluster hostRef h g))
  /\ (forall e details,
         DescribeTasks env h describeInput = inr e ->
         DescribeTasks env h' describeInput = inl details ->
         ecs.Tasks details = [] ->
         outcome (getContainerID cluster taskArn name h g)
         = Ret (Err DescribeFailed)
         /\ outcome (getContainerID cluster taskArn name h' g')
            = outcome (getContainerID cluster taskArn name h g)).
Proof.
  intros listInput hostInput describeInput.
  split; [ | split]; intros e empty Hfailed Hanswer Hempty; split.
  - rewrite getECSTask_no_data; [reflexivity | ].
    cbv zeta. fold listInput. now rewrite Hfailed.
  - rewrite !getECSTask_no_data; [reflexivity | | ];
      cbv zeta; fold listInput; [now rewrite Hfailed | now rewrite Hanswer].
  - rewrite getEC2InstanceID_no_data; [reflexivity | ].
    cbv zeta. fold hostInput. now rewrite Hfailed.
  - rewrite !getEC2InstanceID_no_data; [reflexivity | | ];
      cbv zeta; fold hostInput; [now rewrite Hfailed | now rewrite Hanswer].
  - rewrite getContainerID_eq. cbv zeta. fold describeInput.
    now rewrite Hfailed.
  - rewrite !getContainerID_eq. cbv zeta. fold describeInput.
    now rewrite Hfailed, Hanswer, Hempty.
Qed.

(** *** The loop *)

Lemma upto_maxRetries : upto maxRetries = [0; 1; 2].
Proof. reflexivity. Qed.

Lemma for_range_cons (body : Z -> M flow) (i : Z) (rest : list Z)
    (h : list Event) (g : Source) :
  for_range (i :: rest) body h g =
  let r := body i h g in
  match outcome r with
  | Ret Break => mkRan (Ret true) (emitted r) (source r)
  | Ret Next =>
      let tl := for_range rest body (h ++ emitted r) (source r) in
      mkRan (outcome tl) (emitted r ++ emitted tl) (source tl)
  | Exit c => mkRan (Exit c) (emitted r) (source r)
  | Panic msg => mkRan (Panic msg) (emitted r) (source r)
  end.
Proof.
  cbn [for_range]. unfold bind, ret.
  destruct (body i h g) as [[[ | ] | c | msg] es g1]; cbn [outcome emitted source];
    try reflexivity.
  - now rewrite app_nil_r.
  - now destruct (for_range rest body (h ++ es) g1).
Qed.

(** A failing pass before the last index: the backoff is slept once and the
    loop goes on with the next index, from the history this pass left. *)
Lemma failing_attempt_continues (fl : Flags) (p : option string)
    (region : string) (i : Z) (rest : list Z) (h : list Event) (g : Source)
    (r : Ran flow) :
  r = attempt fl p region i h g ->
  i < maxRetries - 1 ->
  fails r ->
  outcome r = Ret Next
  /\ count is_sleep (emitted r) = 1%nat
  /\ for_range (i :: rest) (attempt fl p region) h g
     = mkRan
         (outcome (for_range rest (attempt fl p region) (h ++ emitted r) (source r)))
         (emitted r
          ++ emitted (for_range rest (attempt fl p region) (h ++ emitted r) (source r)))
         (source (for_range rest (attempt fl p region) (h ++ emitted r) (source r))).
Proof.
  intros Hr Hi Hf.
  pose proof (attempt_sleeps fl p region i h g ltac:(lia)) as Hs.
  cbv zeta in Hs. rewrite <- Hr in Hs.
  assert (Hnext : outcome r = Ret Next).
  { destruct Hf as [Hn | [c Hc]]; [exact Hn | ].
    rewrite Hc in Hs. lia. }
  rewrite Hnext in Hs.
  apply Z.ltb_lt in Hi. rewrite Hi in Hs.
  repeat split; [exact Hnext | exact Hs | ].
  rewrite for_range_cons. cbv zeta. rewrite <- Hr, Hnext. reflexivity.
Qed.

(** The pass at the last index: no backoff is slept, whatever happens. *)
Lemma last_attempt (fl : Flags) (p : option string) (region : string)
    (h : list Event) (g : Source) (r : Ran flow) (l : Ran bool) :
  r = attempt fl p region (maxRetries - 1) h g ->
  l = for_range [maxRetries - 1] (attempt fl p region) h g ->
  emitted l = emitted r
  /\ source l = source r
  /\ (succeeds r -> outcome l = Ret true)
  /\ (fails r ->
      count is_sleep (emitted r) = 0%nat
      /\ (outcome l = Ret false \/ outcome l = Exit 1)).
Proof.
  intros Hr Hl.
  pose proof (attempt_sleeps fl p region (maxRetries - 1) h g ltac:(lia)) as Hs.
  cbv zeta in Hs. rewrite <- Hr in Hs.
  subst l. rewrite for_range_cons. cbv zeta. rewrite <- Hr.
  unfold succeeds, fails.
  destruct (outcome r) as [[ | ] | c | msg] eqn:Ho;
    cbn [for_range ret outcome emitted source]; rewrite ?app_nil_r;
    (split; [reflexivity | split; [reflexivity | split ]]).
  all: try (intros [Hn | [c' Hc]]; discriminate).
  all: try (intros Hn; discriminate Hn).
  all: try (intros _; reflexivity).
  - intros _. split; [exact Hs | now left].
  - intros _. destruct Hs as (-> & _ & Hs). split; [exact Hs | now right].
Qed.

(** The loop after two failing passes: the third pass runs from the history
    the first two left, and one backoff was slept in each of the two. *)
Lemma two_failures_then_last (fl : Flags) (p : option string)
    (region : string) (h : list Event) (g : Source) (r1 r2 r3 : Ran flow) :
  r1 = attempt fl p region 0 h g ->
  r2 = attempt fl p region 1 (h ++ emitted r1) (source r1) ->
  r3 = attempt fl p region 2 ((h ++ emitted r1) ++ emitted r2) (source r2) ->
  fails r1 -> fails r2 ->
  for_range (upto maxRetries) (attempt fl p region) h g
    = mkRan
        (outcome (for_range [2] (attempt fl p region)
                    ((h ++ emitted r1) ++ emitted r2) (source r2)))
        (emitted r1 ++ emitted r2 ++ emitted r3) (source r3)
  /\ count is_sleep (emitted r1) = 1%nat
  /\ count is_sleep (emitted r2) = 1%nat.
Proof.
  intros E1 E2 E3 F1 F2.
  destruct (failing_attempt_continues fl p region 0 [1; 2] h g r1 E1
              ltac:(unfold maxRetries; lia) F1) as (_ & S1 & L1).
  destruct (failing_attempt_continues fl p region 1 [2]
              (h ++ emitted r1) (source r1) r2 E2
              ltac:(unfold maxRetries; lia) F2) as (_ & S2 & L2).
  destruct (last_attempt fl p region ((h ++ emitted r1) ++ emitted r2)
              (source r2) r3 _ E3 eq_refl) as (E & G & _).
  change (maxRetries - 1) with 2 in E, G.
  repeat split; [ | exact S1 | exact S2].
  rewrite upto_maxRetries, L1, L2. cbn [outcome emitted source].
  now rewrite E, G.
Qed.

(** The outcome of a step after which the computation goes on. *)
Lemma outcome_bind {A B : Type} (m : M A) (f : A -> M B) (h : list Event)
    (g : Source) :
  outcome (bind m f h g)
  = match outcome (m h g) with
    | Ret a => outcome (f a (h ++ emitted (m h g)) (source (m h g)))
    | Exit c => Exit c
    | Panic msg => Panic msg
    end.
Proof.
  unfold bind. destruct (m h g) as [[a | c | msg] es g1];
    cbn [outcome emitted source]; try reflexivity.
  now destruct (f a (h ++ es) g1).
Qed.

(** One step of the loop body, with the result that the resolver or the
    session tool called in this step is known to return. *)
Ltac next_step :=
  rewrite outcome_bind;
  cbv beta delta [log_Printf time_Sleep emit];
  cbn [outcome emitted source];
  try match goal with
    | Hq : outcome ?x = Ret _ |- context [outcome ?x] => rewrite Hq
    end;
  cbv beta iota.

(** The loop body acts on what the resolvers and the session tool return:
    from a hypothesis [P] that tells what they return in a pass, the way the
    pass ends, by following the body step by step.  On an error of any of
    them the pass fails (the loop goes on, or the process exits at the last
    index); when the session tool returns no error the pass leaves the
    loop. *)
Ltac follow_pass P :=
  unfold fails, succeeds, attempt;
  inversion P; subst; clear P;
  repeat next_step;
  repeat match goal with
    | |- context [if ?b then _ else _] => destruct b
    end;
  first [ reflexivity | left; reflexivity | right; eexists; reflexivity ].

(** C2: when in every pass a resolver or the session tool returns an error,
    the retry controller makes exactly [maxRetries] = 3 passes (each lists
    the tasks once), sleeps the backoff of 5 seconds exactly twice, never in
    or after the last pass, and then ends the process with exit status 1. *)
Theorem retry_controller_exhausts (fl : Flags) (p : option string)
    (region : string) (h : list Event) (g : Source) :
  let r1 := attempt fl p region 0 h g in
  let r2 := attempt fl p region 1 (h ++ emitted r1) (source r1) in
  let r3 :=
    attempt fl p region 2 ((h ++ emitted r1) ++ emitted r2) (source r2) in
  (exists err, pass_result fl p region 0 h g (Some err)) ->
  (exists err,
      pass_result fl p region 1 (h ++ emitted r1) (source r1) (Some err)) ->
  (exists err,
      pass_result fl p region 2 ((h ++ emitted r1) ++ emitted r2) (source r2)
        (Some err)) ->
  let r := retryController fl p region h g in
  maxRetries = 3
  /\ backoffDelay = 5 * time_Second
  /\ outcome r = Exit 1
  /\ exit_status (outcome r) <> 0
  /\ (exists fatal,
        emitted r = emitted r1 ++ emitted r2 ++ emitted r3 ++ fatal
        /\ forall e, In e fatal -> exists format args, e = EvLog format args)
  /\ count is_ListTasks (emitted r) = Z.to_nat maxRetries
  /\ count is_sleep (emitted r) = Z.to_nat (maxRetries - 1)
  /\ (forall d, In (EvSleep d) (emitted r) -> d = backoffDelay)
  /\ count is_sleep (emitted r3) = 0%nat.
Proof.
  intros r1 r2 r3 (err1 & P1) (err2 & P2) (err3 & P3) r.
  assert (F1 : fails r1) by (clear P2 P3; unfold r1; follow_pass P1).
  assert (F2 : fails r2) by (clear P1 P3; unfold r2; follow_pass P2).
  assert (F3 : fails r3) by (clear P1 P2; unfold r3; follow_pass P3).
  destruct (two_failures_then_last fl p region h g r1 r2 r3
              eq_refl eq_refl eq_refl F1 F2) as (L & S1 & S2).
  destruct (last_attempt fl p region ((h ++ emitted r1) ++ emitted r2)
              (source r2) r3 _ eq_refl eq_refl) as (_ & _ & _ & H3).
  change (maxRetries - 1) with 2 in H3.
  destruct (H3 F3) as (S3 & O3). clear H3.
  assert (Hr : outcome r = Exit 1
               /\ exists fatal,
                    emitted r = emitted r1 ++ emitted r2 ++ emitted r3 ++ fatal
                    /\ (forall e, In e fatal ->
                                  exists format args, e = EvLog format args)
                    /\ forall q, (forall f a, q (EvLog f a) = false) ->
                                 count q fatal = 0%nat).
  { subst r. unfold retryController, bind. rewrite L.
    destruct O3 as [O3 | O3]; rewrite O3; cbn [negb log_Fatalf outcome emitted].
    - split; [reflexivity | ]. eexists. split; [ | split].
      + rewrite <- !app_assoc. reflexivity.
      + intros e [<- | []]. eauto.
      + intros q Hq. unfold count. cbn. now rewrite Hq.
    - split; [reflexivity | ]. exists []. split; [ | split].
      + now rewrite !app_nil_r.
      + intros e [].
      + reflexivity. }
  destruct Hr as (Ho & fatal & He & Hlog & Hcount).
  assert (Hin : forall d, In (EvSleep d) (emitted r) -> d = backoffDelay).
  { intros d. rewrite He, !in_app_iff.
    intros [H | [H | [H | H]]];
      [ unfold r1 in H | unfold r2 in H | unfold r3 in H | ];
      try exact (attempt_sleep_duration _ _ _ _ _ _ _ H).
    destruct (Hlog _ H) as (f & a & Hf). discriminate Hf. }
  repeat split; try reflexivity; try exact Ho; try exact S3; try exact Hin.
  - rewrite Ho. discriminate.
  - exists fatal. split; [exact He | exact Hlog].
  - rewrite He, !count_app. unfold r1, r2, r3.
    rewrite !attempt_one_ListTasks. now rewrite Hcount.
  - rewrite He, !count_app, S1, S2, S3. now rewrite Hcount.
Qed.

(** C6: when in each of the first two passes a resolver or the session tool
    returns an error, and in the third the three resolvers return values and
    the session tool returns no error, the process ends in success (exit
    status 0) after three passes, and exactly two backoffs of 5 seconds were
    slept. *)
Theorem retry_controller_third_time_lucky (fl : Flags) (p : option string)
    (region : string) (h : list Event) (g : Source) :
  let r1 := attempt fl p region 0 h g in
  let r2 := attempt fl p region 1 (h ++ emitted r1) (source r1) in
  let r3 :=
    attempt fl p region 2 ((h ++ emitted r1) ++ emitted r2) (source r2) in
  (exists err, pass_result fl p region 0 h g (Some err)) ->
  (exists err,
      pass_result fl p region 1 (h ++ emitted r1) (source r1) (Some err)) ->
  pass_result fl p region 2 ((h ++ emitted r1) ++ emitted r2) (source r2)
    None ->
  let r := retryController fl p region h g in
  outcome r = Ret tt
  /\ exit_status (outcome r) = 0
  /\ emitted r = emitted r1 ++ emitted r2 ++ emitted r3
  /\ (exists argv, In (EvRun argv None) (emitted r3))
  /\ count is_ListTasks (emitted r) = 3%nat
  /\ count is_sleep (emitted r) = 2%nat
  /\ (forall d, In (EvSleep d) (emitted r) -> d = 5 * time_Second).
Proof.
  intros r1 r2 r3 (err1 & P1) (err2 & P2) P3 r.
  assert (F1 : fails r1) by (clear P2 P3; unfold r1; follow_pass P1).
  assert (F2 : fails r2) by (clear P1 P3; unfold r2; follow_pass P2).
  assert (F3 : succeeds r3) by (clear P1 P2; unfold r3; follow_pass P3).
  destruct (two_failures_then_last fl p region h g r1 r2 r3
              eq_refl eq_refl eq_refl F1 F2) as (L & S1 & S2).
  destruct (last_attempt fl p region ((h ++ emitted r1) ++ emitted r2)
              (source r2) r3 _ eq_refl eq_refl) as (_ & _ & H3 & _).
  change (maxRetries - 1) with 2 in H3.
  pose proof (attempt_sleeps fl p region 2 ((h ++ emitted r1) ++ emitted r2)
                (source r2) ltac:(unfold maxRetries; lia)) as S3.
  cbv zeta in S3. fold r3 in S3.
  specialize (H3 F3). unfold succeeds in F3. rewrite F3 in S3.
  assert (Hr : outcome r = Ret tt
               /\ emitted r = emitted r1 ++ emitted r2 ++ emitted r3).
  { subst r. unfold retryController, bind. rewrite L, H3.
    cbn [negb ret outcome emitted]. now rewrite ?app_nil_r, <- ?app_assoc. }
  destruct Hr as (Ho & He).
  repeat split; try exact Ho; try exact He.
  - now rewrite Ho.
  - apply attempt_succeeds_iff_session. exact F3.
  - rewrite He, !count_app. unfold r1, r2, r3.
    now rewrite !attempt_one_ListTasks.
  - now rewrite He, !count_app, S1, S2, S3.
  - intros d. rewrite He, !in_app_iff.
    intros [H | [H | H]];
      [ unfold r1 in H | unfold r2 in H | unfold r3 in H ];
      exact (attempt_sleep_duration _ _ _ _ _ _ _ H).
Qed.

(** *** Launches *)

Lemma bind_In {A B : Type} (m : M A) (f : A -> M B) (h : list Event)
    (g : Source) (e : Event) :
  In e (emitted (bind m f h g)) ->
  In e (emitted (m h g))
  \/ exists a,
       outcome (m h g) = Ret a
       /\ In e (emitted (f a (h ++ emitted (m h g)) (source (m h g)))).
Proof.
  unfold bind. destruct (m h g) as [[a | c | msg] es g1];
    cbn [outcome emitted source]; auto.
  destruct (f a (h ++ es) g1) as [o es' g2] eqn:Hf. cbn [emitted].
  rewrite in_app_iff. intros [H | H]; [now left | right].
  exists a. rewrite Hf. now split.
Qed.

Lemma for_range_In (body : Z -> M flow) (P : Event -> Prop) :
  (forall i h g e, In e (emitted (body i h g)) -> P e) ->
  forall indices h g e, In e (emitted (for_range indices body h g)) -> P e.
Proof.
  intros Hbody. induction indices as [|i rest IH]; intros h g e.
  - intros [].
  - rewrite for_range_cons. cbv zeta.
    destruct (outcome (body i h g)) as [[ | ] | c | msg];
      cbn [emitted]; try apply Hbody.
    rewrite in_app_iff. intros [H | H]; [eapply Hbody | eapply IH]; exact H.
Qed.

Lemma for_range_starts_with_body (body : Z -> M flow) (i : Z) (rest : list Z)
    (h : list Event) (g : Source) :
  exists more,
    emitted (for_range (i :: rest) body h g) = emitted (body i h g) ++ more.
Proof.
  rewrite for_range_cons. cbv zeta.
  destruct (outcome (body i h g)) as [[ | ] | c | msg]; cbn [emitted];
    try (exists []; now rewrite app_nil_r).
  eexists. reflexivity.
Qed.


(** Every pass starts by listing the running tasks of the service. *)
Lemma attempt_starts_with_ListTasks (fl : Flags) (p : option string)
    (region : string) (i : Z) (h : list Event) (g : Source) :
  let input :=
    {| ecs.lt_Cluster := clusterName fl;
       ecs.lt_ServiceName := serviceName fl;
       ecs.lt_DesiredStatus := types.DesiredStatusRunning |} in
  exists more,
    emitted (attempt fl p region i h g)
    = EvListTasks input (ListTasks env h input) :: more.
Proof.
  cbv zeta. run_program; cbn [app]; eexists; reflexivity.
Qed.

(** The command line of every launch of a pass carries the profile pointer
    and the region the pass was given. *)
Lemma attempt_run_argv (fl : Flags) (p : option string) (region : string)
    (i : Z) (h : list Event) (g : Source) (argv : list string)
    (res : option error) :
  In (EvRun argv res) (emitted (attempt fl p region i h g)) ->
  exists instanceID containerID,
    argv = ssmCmd instanceID containerID p region.
Proof.
  intros H. pose proof (attempt_run_resolved fl p region i h g argv res H) as R.
  assert (Hin : In (EvRun argv res)
                  (lookups_and_runs (emitted (attempt fl p region i h g)))).
  { unfold lookups_and_runs. apply filter_In. split; [exact H | reflexivity]. }
  destruct R. in_cases Hin. injection Hin as <- _. eauto.
Qed.


(** X1: [main] hands [startSSMSession] the address of its flag variable, so
    the command line of every launch of [main] ends with the profile flag and
    the value the flag holds, the empty string included. *)
Lemma main_run_argv (fl : Flags) (h : list Event) (g : Source)
    (argv : list string) (res : option error) :
  In (EvRun argv res) (emitted (main fl h g)) ->
  exists instanceID containerID,
    argv = ssmCmd instanceID containerID (Some (profile fl)) "eu-west-2".
Proof.
  unfold main.
  destruct (String.eqb (serviceName fl) "" || String.eqb (containerName fl) "").
  { intros H. in_cases H. }
  intros H. apply bind_In in H. destruct H as [H | (cfgErr & _ & H)].
  { destruct (negb (String.eqb (profile fl) "")); in_cases H. }
  destruct cfgErr as [err | ]; [in_cases H | ].
  apply bind_In in H. destruct H as [H | (v & _ & H)].
  { unfold validateAWSCredentials, bind, sts_GetCallerIdentity in H.
    destruct (GetCallerIdentity env _); in_cases H. }
  destruct v as [err | ]; [in_cases H | ].
  unfold retryController in H.
  apply bind_In in H. destruct H as [H | (ok & _ & H)].
  - refine (for_range_In (attempt fl (Some (profile fl)) "eu-west-2")
              (fun e0 =>
                 forall a r, e0 = EvRun a r ->
                   exists instanceID containerID,
                     a = ssmCmd instanceID containerID (Some (profile fl))
                           "eu-west-2")
              _ _ _ _ _ H argv res eq_refl).
    intros i h0 g0 e0 Hin a r ->.
    eapply attempt_run_argv. exact Hin.
  - destruct ok; in_cases H.
Qed.

(** *** The host resolver *)

(** X2: the error that the second test of the length would return for an
    empty answer is never returned by the host resolver: the first test
    catches the empty answer. *)
Lemma getEC2InstanceID_never_NoHostInstances (cluster hostRef : string)
    (h : list Event) (g : Source) :
  outcome (getEC2InstanceID cluster hostRef h g)
  <> Ret (Err (NoHostInstances cluster)).
Proof.
  unfold getEC2InstanceID.
  cbv beta iota zeta delta
    [bind ret svc_DescribeContainerInstances time_Now_UnixNano rand_seed
     rand_intn index deref outcome emitted source];
  repeat (break_match; cbv beta iota delta [outcome emitted source]);
  discriminate.
Qed.

(** X3: over a non-empty answer the host resolver seeds the source from the
    clock, draws an index with [rand.Intn] and dereferences the identifier of
    the instance at that index: it returns the identifier when the instance
    carries one and panics on the nil pointer when it carries none. *)
Lemma getEC2InstanceID_nonempty (cluster hostRef : string) (h : list Event)
    (g : Source) (out : ecs.DescribeContainerInstancesOutput) :
  let input :=
    {| ecs.dci_Cluster := cluster;
       ecs.dci_ContainerInstances := [hostRef] |} in
  let now := UnixNano env (h ++ [EvDescribeContainerInstances input (inl out)]) in
  let n := len (ecs.ContainerInstances out) in
  let k := fst (rand_Intn (rand_Seed now) n) in
  DescribeContainerInstances env h input = inl out ->
  ecs.ContainerInstances out <> [] ->
  0 <= k < n
  /\ exists selectedInstance,
       nth_error (ecs.ContainerInstances out) (Z.to_nat k)
       = Some selectedInstance
       /\ getEC2InstanceID cluster hostRef h g
          = mkRan
              match types.Ec2InstanceId selectedInstance with
              | Some instanceID => Ret (Ok instanceID)
              | None => Panic nil_dereference
              end
              [EvDescribeContainerInstances input (inl out); EvNow now]
              (snd (rand_Intn (rand_Seed now) n)).
Proof.
  intros input now n k Hcall Hne.
  destruct (draw_in_range (ecs.ContainerInstances out) (rand_Seed now) Hne)
    as (Hk & inst & Hnth).
  fold n in Hk, Hnth. fold k in Hk, Hnth.
  split; [exact Hk | ]. exists inst. split; [exact Hnth | ].
  assert (Hn : (n =? 0) = false).
  { apply Z.eqb_neq. intros H0. apply len_zero_iff in H0. contradiction. }
  assert (Hpos : (n <=? 0) = false) by (apply Z.leb_gt; lia).
  assert (Hk0 : (k <? 0) = false) by (apply Z.ltb_ge; lia).
  unfold getEC2InstanceID, bind, svc_DescribeContainerInstances, ret,
    time_Now_UnixNano, rand_seed, rand_intn, index, deref.
  fold input. rewrite Hcall. fold n. rewrite Hn, Hpos.
  fold now. fold k. rewrite Hk0, Hnth.
  destruct (types.Ec2InstanceId inst); reflexivity.
Qed.

(** *** The startup of [main] *)

(** [main] once the required flags are there: the configuration is loaded,
    then the caller identity is checked, then the retry controller runs. *)
Lemma main_unfold (fl : Flags) (h : list Event) (g : Source) :
  serviceName fl <> "" ->
  containerName fl <> "" ->
  let region := "eu-west-2" in
  let shared :=
    if String.eqb (profile fl) "" then None else Some (profile fl) in
  let c := LoadDefaultConfig env h shared region in
  let e1 := EvLoadDefaultConfig shared region c in
  let identity := GetCallerIdentity env (h ++ [e1]) in
  let e2 := EvGetCallerIdentity identity in
  main fl h g
  = match c with
    | Some err =>
        mkRan (Exit 1)
          [e1; EvLog "Unable to load AWS config: %v" [ArgError err]] g
    | None =>
        match identity with
        | inr _ =>
            mkRan (Exit 1)
              [ e1; e2;
                EvLog "AWS authentication failed: %v"
                  [ArgError
                     "unable to authenticate with AWS, please check you are logged in"] ]
              g
        | inl identityOutput =>
            let e3 :=
              EvPrint
                ("Authenticated as ARN: %s (Account: %s, UserId: %s)"
                   ++ newline)%string
                [ ArgString (Arn identityOutput);
                  ArgString (Account identityOutput);
                  ArgString (UserId identityOutput) ] in
            let r :=
              retryController fl (Some (profile fl)) region
                (h ++ [e1; e2; e3]) g in
            mkRan (outcome r) (e1 :: e2 :: e3 :: emitted r) (source r)
        end
    end.
Proof.
  intros Hs Hc. cbv zeta.
  apply String.eqb_neq in Hs. apply String.eqb_neq in Hc.
  unfold main. rewrite Hs, Hc. cbn [orb].
  unfold bind at 1.
  destruct (String.eqb (profile fl) ""); cbn [negb];
    unfold config_LoadDefaultConfig;
    (destruct (LoadDefaultConfig env h _ "eu-west-2") as [err | ] eqn:Hcfg;
     [reflexivity | ]);
    unfold bind at 1; unfold validateAWSCredentials;
    unfold bind at 1; unfold sts_GetCallerIdentity;
    (destruct (GetCallerIdentity env _) as [identityOutput | e] eqn:Hid;
     [ | reflexivity]);
    unfold bind at 1; unfold fmt_Printf, emit, ret;
    cbn [app]; rewrite <- !app_assoc; cbn [app];
    match goal with
    | |- context [retryController ?a ?b ?c ?d ?e] =>
        destruct (retryController a b c d e) as [o es g1]
    end; reflexivity.
Qed.

(** X4: [main] ends with the usage message, exit status 1 and nothing else
    exactly when the service or the container flag is empty; the cluster flag
    is not checked: once the configuration is loaded and the identity is
    confirmed, the first lookup lists the tasks of the cluster as given, the
    empty name included. *)
Theorem main_flag_validation (fl : Flags) (h : list Event) (g : Source) :
  ((serviceName fl = "" \/ containerName fl = "")
   <-> main fl h g = mkRan (Exit 1) [EvLog usage []] g)
  /\ (serviceName fl <> "" ->
      containerName fl <> "" ->
      forall identityOutput,
        In (EvGetCallerIdentity (inl identityOutput)) (emitted (main fl h g)) ->
        exists e1 e2 e3 answer more,
          emitted (main fl h g)
          = e1 :: e2 :: e3
              :: EvListTasks
                   {| ecs.lt_Cluster := clusterName fl;
                      ecs.lt_ServiceName := serviceName fl;
                      ecs.lt_DesiredStatus := types.DesiredStatusRunning |}
                   answer
              :: more).
Proof.
  split; [split | ].
  - intros Hempty. unfold main.
    assert (Hor : String.eqb (serviceName fl) ""
                  || String.eqb (containerName fl) "" = true).
    { apply orb_true_iff.
      destruct Hempty as [He | He]; [left | right]; now apply String.eqb_eq. }
    now rewrite Hor.
  - intros Hmain.
    destruct (String.eqb_spec (serviceName fl) "") as [Hs | Hs]; [now left | ].
    destruct (String.eqb_spec (containerName fl) "") as [Hc | Hc];
      [now right | ].
    exfalso. rewrite (main_unfold fl h g Hs Hc) in Hmain. cbv zeta in Hmain.
    destruct (LoadDefaultConfig env h _ _); [discriminate Hmain | ].
    destruct (GetCallerIdentity env _); discriminate Hmain.
  - intros Hs Hc identityOutput.
    rewrite (main_unfold fl h g Hs Hc). cbv zeta.
    destruct (LoadDefaultConfig env h _ _) as [err | ] eqn:Hcfg.
    { intros Hin. in_cases Hin. }
    destruct (GetCallerIdentity env _) as [identity | e] eqn:Hid.
    2: { intros Hin. in_cases Hin. }
    intros _. cbn [emitted].
    unfold retryController, bind. rewrite upto_maxRetries.
    match goal with
    | |- context [for_range ?l ?b ?hh ?gg] =>
        destruct (for_range_starts_with_body b 0 [1; 2] hh gg) as (more & Hmore);
        destruct (attempt_starts_with_ListTasks fl (Some (profile fl))
                    "eu-west-2" 0 hh gg) as (more' & Hmore');
        destruct (for_range l b hh gg) as [o es g1]
    end.
    cbn [emitted] in Hmore. rewrite Hmore' in Hmore. subst es.
    do 4 eexists.
    destruct o as [[ | ] | c | msg]; cbn [negb emitted app];
      eexists; reflexivity.
Qed.

(** X5: [main] looks nothing up, launches nothing and never sleeps unless the
    caller identity was confirmed: a run without a successful identity check
    ends with exit status 1 and holds no lookup, launch or sleep. *)
Theorem main_nothing_without_identity (fl : Flags) (h : list Event)
    (g : Source) :
  (forall identityOutput,
      ~ In (EvGetCallerIdentity (inl identityOutput)) (emitted (main fl h g))) ->
  outcome (main fl h g) = Exit 1
  /\ lookups_and_runs (emitted (main fl h g)) = []
  /\ count is_sleep (emitted (main fl h g)) = 0%nat.
Proof.
  intros Hnone.
  destruct (String.eqb_spec (serviceName fl) "") as [Hs | Hs].
  { unfold main. apply String.eqb_eq in Hs. rewrite Hs. cbn [orb].
    repeat split. }
  destruct (String.eqb_spec (containerName fl) "") as [Hc | Hc].
  { unfold main. apply String.eqb_eq in Hc. rewrite Hc, orb_true_r.
    repeat split. }
  revert Hnone. rewrite (main_unfold fl h g Hs Hc). cbv zeta.
  destruct (LoadDefaultConfig env h _ _) as [err | ];
    [intros _; repeat split | ].
  destruct (GetCallerIdentity env _) as [identity | e];
    [ | intros _; repeat split].
  intros Hnone. exfalso. apply (Hnone identity). cbn [emitted].
  right. left. reflexivity.
Qed.

(** *** What a whole run does *)

Lemma count_notes (q : Event -> bool) (es : list Event) :
  forallb is_note es = true ->
  (forall e, is_note e = true -> q e = false) ->
  count q es = 0%nat.
Proof.
  intros Hes Hq. unfold count.
  induction es as [|e es IH]; [reflexivity | ].
  cbn in Hes. apply andb_true_iff in Hes. destruct Hes as [He Hes].
  cbn. rewrite (Hq e He). now apply IH.
Qed.

Lemma notes_In (es : list Event) (e : Event) :
  forallb is_note es = true -> In e es -> is_note e = true.
Proof.
  intros Hes Hin. rewrite forallb_forall in Hes. now apply Hes.
Qed.

(** The number of sleeps of a pass, by the way it ends. *)
Lemma attempt_sleeps_exact (fl : Flags) (p : option string) (region : string)
    (i : Z) (h : list Event) (g : Source) :
  i <= maxRetries - 1 ->
  count is_sleep (emitted (attempt fl p region i h g))
  = match outcome (attempt fl p region i h g) with
    | Ret Next => if i <? maxRetries - 1 then 1%nat else 0%nat
    | _ => 0%nat
    end.
Proof.
  intros Hi. run_program; reflect_tests; unfold maxRetries in *;
    try reflexivity; lia.
Qed.

(** A pass launches at most once, looks up at most four times and sleeps at
    most once. *)
Lemma attempt_bounds (fl : Flags) (p : option string) (region : string)
    (i : Z) (h : list Event) (g : Source) :
  (count is_Run (emitted (attempt fl p region i h g)) <= 1
   /\ count is_lookup (emitted (attempt fl p region i h g)) <= 4
   /\ count is_sleep (emitted (attempt fl p region i h g)) <= 1)%nat.
Proof. run_program; cbn; lia. Qed.


(** The controller, by the way its loop ends. *)
Lemma retryController_unfold (fl : Flags) (p : option string)
    (region : string) (h : list Event) (g : Source) :
  let l := for_range (upto maxRetries) (attempt fl p region) h g in
  retryController fl p region h g
  = match outcome l with
    | Ret true => mkRan (Ret tt) (emitted l) (source l)
    | Ret false =>
        mkRan (Exit 1)
          (emitted l
           ++ [EvLog "Failed to start SSM session after %d attempts."
                 [ArgInt maxRetries]])
          (source l)
    | Exit c => mkRan (Exit c) (emitted l) (source l)
    | Panic msg => mkRan (Panic msg) (emitted l) (source l)
    end.
Proof.
  cbv zeta. unfold retryController, bind.
  destruct (for_range _ _ h g) as [[[ | ] | c | msg] es g1];
    cbn [negb ret log_Fatalf outcome emitted source];
    rewrite ?app_nil_r; reflexivity.
Qed.

(** A run of [main] is a startup that ends the process, or a startup
    followed by the loop of the controller and at most a last message. *)
Lemma main_shape (fl : Flags) (h : list Event) (g : Source) :
  (outcome (main fl h g) = Exit 1
   /\ forallb is_note (emitted (main fl h g)) = true)
  \/ exists h2 pre tail,
       forallb is_note pre = true
       /\ forallb is_note tail = true
       /\ emitted (main fl h g)
          = pre
            ++ emitted (for_range (upto maxRetries)
                          (attempt fl (Some (profile fl)) "eu-west-2") h2 g)
            ++ tail
       /\ outcome (main fl h g)
          = match outcome (for_range (upto maxRetries)
                             (attempt fl (Some (profile fl)) "eu-west-2") h2 g)
            with
            | Ret true => Ret tt
            | Ret false => Exit 1
            | Exit c => Exit c
            | Panic msg => Panic msg
            end.
Proof.
  destruct (String.eqb_spec (serviceName fl) "") as [Hs | Hs].
  { left. unfold main. apply String.eqb_eq in Hs. rewrite Hs. now split. }
  destruct (String.eqb_spec (containerName fl) "") as [Hc | Hc].
  { left. unfold main. apply String.eqb_eq in Hc. rewrite Hc, orb_true_r.
    now split. }
  rewrite (main_unfold fl h g Hs Hc). cbv zeta.
  destruct (LoadDefaultConfig env h _ _) as [err | ]; [left; now split | ].
  destruct (GetCallerIdentity env _) as [identity | e]; [ | left; now split].
  right. rewrite retryController_unfold. cbv zeta.
  match goal with
  | |- context [for_range ?l ?b ?hh ?gg] =>
      exists hh; destruct (for_range l b hh gg) as [[[ | ] | c | msg] es g1]
  end; cbn [outcome emitted source].
  all: match goal with
       | |- context [?a :: ?b :: ?c :: ?l ++ [?t]] => exists [a; b; c], [t]
       | |- context [?a :: ?b :: ?c :: ?l] => exists [a; b; c], []
       end; rewrite ?app_nil_r; repeat split.
Qed.

(** Every index of the loop runs at most once, so a bound on what one pass
    does bounds what the loop does. *)
Lemma for_range_count_le (body : Z -> M flow) (q : Event -> bool) (b : nat) :
  (forall i h g, (count q (emitted (body i h g)) <= b)%nat) ->
  forall indices h g,
    (count q (emitted (for_range indices body h g)) <= length indices * b)%nat.
Proof.
  intros Hbody. induction indices as [|i rest IH]; intros h g.
  - cbn. lia.
  - rewrite for_range_cons. cbv zeta. specialize (Hbody i h g).
    destruct (outcome (body i h g)) as [[ | ] | c | msg];
      cbn [emitted length]; try lia.
    rewrite count_app.
    specialize (IH (h ++ emitted (body i h g)) (source (body i h g))). lia.
Qed.

(** One backoff is slept between two passes of the loop and nowhere else. *)
Lemma loop_sleeps_between_attempts (fl : Flags) (p : option string)
    (region : string) (h : list Event) (g : Source) :
  let l := for_range (upto maxRetries) (attempt fl p region) h g in
  (count is_sleep (emitted l) + 1 = count is_ListTasks (emitted l))%nat.
Proof.
  cbv zeta. rewrite upto_maxRetries.
  rewrite for_range_cons. cbv zeta.
  pose proof (attempt_sleeps_exact fl p region 0 h g
                ltac:(unfold maxRetries; lia)) as S1.
  pose proof (attempt_one_ListTasks fl p region 0 h g) as T1.
  destruct (attempt fl p region 0 h g) as [o1 es1 g1].
  cbn [outcome emitted source] in *.
  destruct o1 as [[ | ] | c | msg]; cbn [emitted]; try lia.
  change (0 <? maxRetries - 1) with true in S1. cbv iota in S1.
  rewrite for_range_cons. cbv zeta.
  pose proof (attempt_sleeps_exact fl p region 1 (h ++ es1) g1
                ltac:(unfold maxRetries; lia)) as S2.
  pose proof (attempt_one_ListTasks fl p region 1 (h ++ es1) g1) as T2.
  destruct (attempt fl p region 1 (h ++ es1) g1) as [o2 es2 g2].
  cbn [outcome emitted source] in *.
  destruct o2 as [[ | ] | c | msg]; cbn [emitted]; rewrite ?count_app; try lia.
  change (1 <? maxRetries - 1) with true in S2. cbv iota in S2.
  rewrite for_range_cons. cbv zeta.
  pose proof (attempt_sleeps_exact fl p region 2 ((h ++ es1) ++ es2) g2
                ltac:(unfold maxRetries; lia)) as S3.
  pose proof (attempt_one_ListTasks fl p region 2 ((h ++ es1) ++ es2) g2) as T3.
  destruct (attempt fl p region 2 ((h ++ es1) ++ es2) g2) as [o3 es3 g3].
  cbn [outcome emitted source] in *.
  change (2 <? maxRetries - 1) with false in S3. cbv iota in S3.
  destruct o3 as [[ | ] | c | msg];
    cbn [emitted for_range ret]; rewrite ?app_nil_r, ?count_app; lia.
Qed.

(** The loop is left by [break] exactly when a launch returned no error. *)
Lemma loop_true_iff_session (fl : Flags) (p : option string) (region : string)
    (indices : list Z) (h : list Event) (g : Source) :
  outcome (for_range indices (attempt fl p region) h g) = Ret true
  <-> exists argv,
        In (EvRun argv None)
          (emitted (for_range indices (attempt fl p region) h g)).
Proof.
  revert h g. induction indices as [|i rest IH]; intros h g.
  - cbn. split; [discriminate | intros (argv & [])].
  - rewrite for_range_cons. cbv zeta.
    pose proof (attempt_succeeds_iff_session fl p region i h g) as Hs.
    unfold succeeds in Hs.
    destruct (outcome (attempt fl p region i h g)) as [[ | ] | c | msg] eqn:Ho;
      cbn [outcome emitted].
    + split; [intros _; now apply Hs | reflexivity].
    + rewrite IH. split; intros (argv & Hin); exists argv.
      * apply in_app_iff. now right.
      * apply in_app_iff in Hin. destruct Hin as [Hin | Hin]; [ | exact Hin].
        assert (Hbreak : Ret Next = @Ret flow Break)
          by (apply Hs; now exists argv).
        discriminate Hbreak.
    + split; [discriminate | ]. intros Hin. apply Hs in Hin. discriminate Hin.
    + split; [discriminate | ]. intros Hin. apply Hs in Hin. discriminate Hin.
Qed.


Lemma note_not_counted (e : Event) :
  is_note e = true ->
  is_ListTasks e = false /\ is_Run e = false /\ is_lookup e = false
  /\ is_sleep e = false.
Proof. destruct e; cbn; intros H; try discriminate H; auto. Qed.

(** X6: whatever the collaborators answer, a run of [main] lists the tasks
    at most three times, launches the session tool at most three times, makes
    at most twelve lookups and sleeps at most twice, each time for 5
    seconds. *)
Theorem main_bounded_effort (fl : Flags) (h : list Event) (g : Source) :
  (count is_ListTasks (emitted (main fl h g)) <= 3
   /\ count is_Run (emitted (main fl h g)) <= 3
   /\ count is_lookup (emitted (main fl h g)) <= 12
   /\ count is_sleep (emitted (main fl h g)) <= 2)%nat
  /\ forall d, In (EvSleep d) (emitted (main fl h g)) -> d = 5 * time_Second.
Proof.
  destruct (main_shape fl h g)
    as [(_ & Hnotes) | (h2 & pre & tail & Hpre & Htail & Hes & _)].
  - split.
    + rewrite !(count_notes _ _ Hnotes);
        try (intros e He; now apply note_not_counted in He).
      lia.
    + intros d Hin. apply (notes_In _ _ Hnotes) in Hin. discriminate Hin.
  - rewrite Hes. split.
    + rewrite !count_app.
      rewrite !(count_notes _ _ Hpre), !(count_notes _ _ Htail);
        try (intros e He; now apply note_not_counted in He).
      pose proof (loop_sleeps_between_attempts fl (Some (profile fl))
                    "eu-west-2" h2 g) as Hsl. cbv zeta in Hsl.
      pose proof (for_range_count_le (attempt fl (Some (profile fl)) "eu-west-2")
                    is_ListTasks 1
                    (fun i h0 g0 =>
                       eq_ind_r (fun n => (n <= 1)%nat) (le_n 1)
                         (attempt_one_ListTasks fl (Some (profile fl))
                            "eu-west-2" i h0 g0))
                    (upto maxRetries) h2 g) as Hlt.
      pose proof (for_range_count_le (attempt fl (Some (profile fl)) "eu-west-2")
                    is_Run 1
                    (fun i h0 g0 =>
                       proj1 (attempt_bounds fl (Some (profile fl))
                                "eu-west-2" i h0 g0))
                    (upto maxRetries) h2 g) as Hrun.
      pose proof (for_range_count_le (attempt fl (Some (profile fl)) "eu-west-2")
                    is_lookup 4
                    (fun i h0 g0 =>
                       proj1 (proj2 (attempt_bounds fl (Some (profile fl))
                                       "eu-west-2" i h0 g0)))
                    (upto maxRetries) h2 g) as Hlook.
      change (length (upto maxRetries)) with 3%nat in Hlt, Hrun, Hlook.
      lia.
    + intros d Hin. apply in_app_iff in Hin. destruct Hin as [Hin | Hin].
      { apply (notes_In _ _ Hpre) in Hin. discriminate Hin. }
      apply in_app_iff in Hin. destruct Hin as [Hin | Hin].
      2: { apply (notes_In _ _ Htail) in Hin. discriminate Hin. }
      refine (for_range_In (attempt fl (Some (profile fl)) "eu-west-2")
                (fun e0 => forall d0, e0 = EvSleep d0 -> d0 = 5 * time_Second)
                _ _ _ _ _ Hin d eq_refl).
      intros i h0 g0 e0 Hin0 d0 ->.
      exact (attempt_sleep_duration _ _ _ _ _ _ _ Hin0).
Qed.

(** X7: in every run of [main] the backoff is slept between two attempts and
    nowhere else: the number of sleeps is the number of attempts (each lists
    the tasks once) less one, and zero when no attempt was made. *)
Theorem main_sleeps_between_attempts (fl : Flags) (h : list Event)
    (g : Source) :
  count is_sleep (emitted (main fl h g))
  = Nat.pred (count is_ListTasks (emitted (main fl h g))).
Proof.
  destruct (main_shape fl h g)
    as [(_ & Hnotes) | (h2 & pre & tail & Hpre & Htail & Hes & _)].
  - rewrite !(count_notes _ _ Hnotes);
      try (intros e He; now apply note_not_counted in He).
    reflexivity.
  - rewrite Hes, !count_app.
    rewrite !(count_notes _ _ Hpre), !(count_notes _ _ Htail);
      try (intros e He; now apply note_not_counted in He).
    pose proof (loop_sleeps_between_attempts fl (Some (profile fl))
                  "eu-west-2" h2 g) as Hsl. cbv zeta in Hsl.
    lia.
Qed.

(** X8: [main] returns normally, with exit status 0, exactly when a launch of
    the session tool returned no error. *)
Theorem main_succeeds_iff_session_started (fl : Flags) (h : list Event)
    (g : Source) :
  outcome (main fl h g) = Ret tt
  <-> exists argv, In (EvRun argv None) (emitted (main fl h g)).
Proof.
  destruct (main_shape fl h g)
    as [(Ho & Hnotes) | (h2 & pre & tail & Hpre & Htail & Hes & Ho)].
  - rewrite Ho. split; [discriminate | ].
    intros (argv & Hin). apply (notes_In _ _ Hnotes) in Hin. discriminate Hin.
  - rewrite Ho, Hes.
    pose proof (loop_true_iff_session fl (Some (profile fl)) "eu-west-2"
                  (upto maxRetries) h2 g) as Hloop.
    split.
    + intros Hret.
      assert (Htrue : outcome (for_range (upto maxRetries)
                                 (attempt fl (Some (profile fl)) "eu-west-2")
                                 h2 g) = Ret true).
      { destruct (outcome (for_range _ _ h2 g)) as [[ | ] | c | msg];
          try discriminate Hret; reflexivity. }
      apply Hloop in Htrue. destruct Htrue as (argv & Hin). exists argv.
      apply in_app_iff. right. apply in_app_iff. now left.
    + intros (argv & Hin). apply in_app_iff in Hin. destruct Hin as [Hin | Hin].
      { apply (notes_In _ _ Hpre) in Hin. discriminate Hin. }
      apply in_app_iff in Hin. destruct Hin as [Hin | Hin].
      2: { apply (notes_In _ _ Htail) in Hin. discriminate Hin. }
      assert (Htrue : outcome (for_range (upto maxRetries)
                                 (attempt fl (Some (profile fl)) "eu-west-2")
                                 h2 g) = Ret true)
        by (apply Hloop; now exists argv).
      now rewrite Htrue.
Qed.


(** X10: a pass that launches the session tool has made exactly four
    lookups, two of them for the details of the same task: once for its host
    reference and once more for its containers. *)
Theorem attempt_describes_task_twice (fl : Flags) (p : option string)
    (region : string) (i : Z) (h : list Event) (g : Source)
    (argv : list string) (res : option error) :
  In (EvRun argv res) (emitted (attempt fl p region i h g)) ->
  count is_lookup (emitted (attempt fl p region i h g)) = 4%nat
  /\ exists taskArn first second,
       filter is_DescribeTasks (emitted (attempt fl p region i h g))
       = [ EvDescribeTasks
             {| ecs.dt_Cluster := clusterName fl; ecs.dt_Tasks := [taskArn] |}
             first;
           EvDescribeTasks
             {| ecs.dt_Cluster := clusterName fl; ecs.dt_Tasks := [taskArn] |}
             second ].
Proof.
  run_program; intros Hin; try (in_cases Hin; fail).
  all: split; [reflexivity | do 3 eexists; reflexivity].
Qed.

(** *** The first version *)

Ltac run_v1 :=
  cbv beta iota zeta delta
    [main_v1 getECSTask_v1 getEC2InstanceID_v1 getContainerID
     startSSMSession_v1 bind ret emit svc_ListTasks svc_DescribeTasks
     svc_DescribeContainerInstances config_LoadDefaultConfig fmt_Printf
     log_Fatalf log_Fatal cmd_Run index deref pure outcome emitted source];
  repeat (break_match; cbv beta iota delta [outcome emitted source]);
  try (exfalso; eapply scanContainers_no_exit; eassumption).



(** X12: whenever the first version launches the session tool, it has listed
    the tasks, described the first task listed, looked up the host of that
    task, described the same task again, and the command line holds the
    first host instance returned, the container found by name in the second
    description, the region and the profile flag. *)
Theorem main_v1_launch_target (usageMessage : string) (fl : Flags)
    (h : list Event) (g : Source) (argv : list string) (res : option error) :
  In (EvRun argv res) (emitted (main_v1 usageMessage fl h g)) ->
  exists o1 taskArn o2 task0 rest2 hostRef o3 inst instanceID o4 task1 rest4
         containerID,
    lookups_and_runs (emitted (main_v1 usageMessage fl h g))
    = [ EvListTasks
          {| ecs.lt_Cluster := clusterName fl;
             ecs.lt_ServiceName := serviceName fl;
             ecs.lt_DesiredStatus := types.DesiredStatusRunning |} (inl o1);
        EvDescribeTasks
          {| ecs.dt_Cluster := clusterName fl; ecs.dt_Tasks := [taskArn] |}
          (inl o2);
        EvDescribeContainerInstances
          {| ecs.dci_Cluster := clusterName fl;
             ecs.dci_ContainerInstances := [hostRef] |}
          (inl o3);
        EvDescribeTasks
          {| ecs.dt_Cluster := clusterName fl; ecs.dt_Tasks := [taskArn] |}
          (inl o4);
        EvRun argv res ]
    /\ argv = ssmCmd_v1 instanceID containerID (Some (profile fl)) "eu-west-2"
    /\ nth_error (ecs.TaskArns o1) 0 = Some taskArn
    /\ ecs.Tasks o2 = task0 :: rest2
    /\ types.ContainerInstanceArn task0 = Some hostRef
    /\ nth_error (ecs.ContainerInstances o3) 0 = Some inst
    /\ types.Ec2InstanceId inst = Some instanceID
    /\ ecs.Tasks o4 = task1 :: rest4
    /\ scanContainers (types.Containers task1) (containerName fl)
       = Ret (Ok containerID).
Proof.
  run_v1; intros Hin; try (in_cases Hin; fail).
  all: in_cases Hin; injection Hin as <- <-.
  all: do 13 eexists.
  all: split; [cbn; reflexivity | ].
  all: split; [reflexivity | ].
  all: repeat match goal with
         | |- _ /\ _ => split
         end; eassumption.
Qed.

(** The first version of the task resolver over a list that is not empty:
    the first task is described and the answer decides the result. *)
Lemma getECSTask_v1_nonempty (cluster service : string) (h : list Event)
    (g : Source) (out : ecs.ListTasksOutput) (a : string) (rest : list string) :
  let input :=
    {| ecs.lt_Cluster := cluster;
       ecs.lt_ServiceName := service;
       ecs.lt_DesiredStatus := types.DesiredStatusRunning |} in
  let describeInput :=
    {| ecs.dt_Cluster := cluster; ecs.dt_Tasks := [a] |} in
  let d := DescribeTasks env (h ++ [EvListTasks input (inl out)]) describeInput in
  ListTasks env h input = inl out ->
  ecs.TaskArns out = a :: rest ->
  getECSTask_v1 cluster service h g
  = mkRan
      match d with
      | inr _ => Ret (Err DescribeFailed)
      | inl describeResult =>
          match ecs.Tasks describeResult with
          | [] => Ret (Err DescribeFailed)
          | task0 :: _ =>
              match types.ContainerInstanceArn task0 with
              | Some hostRef => Ret (Ok (a, hostRef))
              | None => Panic nil_dereference
              end
          end
      end
      [EvListTasks input (inl out); EvDescribeTasks describeInput d] g.
Proof.
  intros input describeInput d Hlist Hcons.
  unfold getECSTask_v1, bind, svc_ListTasks, ret, index, svc_DescribeTasks,
    deref.
  fold input. rewrite Hlist, Hcons.
  change (len (a :: rest) =? 0) with false.
  change (0 <? 0) with false.
  change (nth_error (a :: rest) (Z.to_nat 0)) with (Some a).
  cbv beta iota. rewrite ?app_nil_r. fold describeInput. fold d.
  destruct d as [dr | e]; [ | reflexivity].
  destruct (ecs.Tasks dr) as [|task0 tasks]; [reflexivity | ].
  destruct (types.ContainerInstanceArn task0); reflexivity.
Qed.

(** X13: when one task is running, the random choice of the current version
    changes nothing: both versions of the task resolver ask for the details
    of that task and return it when they return a task. *)
Theorem task_resolvers_agree_on_one_task (cluster service : string)
    (h : list Event) (g : Source) (out : ecs.ListTasksOutput) (a : string) :
  let input :=
    {| ecs.lt_Cluster := cluster;
       ecs.lt_ServiceName := service;
       ecs.lt_DesiredStatus := types.DesiredStatusRunning |} in
  let describeInput :=
    {| ecs.dt_Cluster := cluster; ecs.dt_Tasks := [a] |} in
  ListTasks env h input = inl out ->
  ecs.TaskArns out = [a] ->
  exists now first second,
    emitted (getECSTask_v1 cluster service h g)
    = [EvListTasks input (inl out); EvDescribeTasks describeInput first]
    /\ emitted (getECSTask cluster service h g)
       = [ EvListTasks input (inl out); EvNow now;
           EvDescribeTasks describeInput second ]
    /\ (forall t hostRef,
           outcome (getECSTask_v1 cluster service h g) = Ret (Ok (t, hostRef))
           -> t = a)
    /\ (forall t hostRef,
           outcome (getECSTask cluster service h g) = Ret (Ok (t, hostRef))
           -> t = a).
Proof.
  intros input describeInput Hlist Hone.
  assert (Hne : ecs.TaskArns out <> []) by (rewrite Hone; discriminate).
  destruct (draw_in_range (ecs.TaskArns out)
              (rand_Seed (UnixNano env (h ++ [EvListTasks input (inl out)])))
              Hne) as (Hk & taskArn & Hnth).
  assert (Ha : taskArn = a).
  { unfold len in Hk, Hnth. rewrite Hone in Hk, Hnth.
    cbn [length Z.of_nat Pos.of_succ_nat] in Hk, Hnth.
    replace (fst (rand_Intn _ _)) with 0 in Hnth by lia.
    cbn in Hnth. now injection Hnth as <-. }
  subst taskArn.
  pose proof (getECSTask_nonempty cluster service h g out a Hlist Hne
                (proj1 Hk) Hnth) as Hrun.
  pose proof (getECSTask_v1_nonempty cluster service h g out a [] Hlist Hone)
    as Hrun1.
  cbv zeta in Hrun, Hrun1. fold input describeInput in Hrun, Hrun1.
  rewrite Hrun, Hrun1. cbn [outcome emitted].
  do 3 eexists. split; [reflexivity | split; [reflexivity | split] ].
  - intros t hostRef. repeat break_match; intros H; congruence.
  - intros t hostRef. repeat break_match; intros H; congruence.
Qed.

(** *** The container scan, the messages *)

(** X14: scanning a list made of two parts gives what the first part gives
    when it holds the name, and what the second part gives when it does not:
    containers behind the first match never change the result, and a panic
    of the scan of the first part is the panic of the whole scan. *)
Theorem scanContainers_app (front back : list types.Container)
    (name : string) :
  scanContainers (front ++ back) name
  = match scanContainers front name with
    | Ret (Ok runtimeId) => Ret (Ok runtimeId)
    | Ret (Err _) => scanContainers back name
    | Exit code => Exit code
    | Panic msg => Panic msg
    end.
Proof.
  induction front as [|c front IH]; cbn [app scanContainers].
  - reflexivity.
  - destruct (types.Name c) as [n | ]; [ | reflexivity].
    destruct (String.eqb n name); [ | exact IH].
    destruct (types.RuntimeId c); reflexivity.
Qed.

(** X17: the scan panics exactly when it meets, before any container of the
    name supplied, a container without a name, or when the first container
    of the name supplied carries no runtime identifier; the panic is the nil
    pointer dereference. *)
Theorem scanContainers_panics_iff (containers : list types.Container)
    (name : string) :
  scanContainers containers name = Panic nil_dereference
  <-> exists pre c post,
        containers = pre ++ c :: post
        /\ (forall c', In c' pre ->
                       exists n, types.Name c' = Some n /\ n <> name)
        /\ (types.Name c = None
            \/ (types.Name c = Some name /\ types.RuntimeId c = None)).
Proof.
  induction containers as [|c0 containers IH]; cbn [scanContainers].
  - split; [discriminate | ].
    intros (pre & c & post & Hsplit & _). destruct pre; discriminate Hsplit.
  - destruct (types.Name c0) as [n | ] eqn:Hn.
    + destruct (String.eqb_spec n name) as [-> | Hne].
      * destruct (types.RuntimeId c0) as [runtimeId | ] eqn:Hid.
        -- split; [discriminate | ].
           intros (pre & c & post & Hsplit & Hpre & Hc).
           destruct pre as [|c1 pre]; cbn in Hsplit; injection Hsplit as <- _.
           ++ destruct Hc as [Hc | [_ Hc]]; congruence.
           ++ destruct (Hpre c0 (or_introl eq_refl)) as (n' & Hn' & Hne').
              congruence.
        -- split; [intros _ | reflexivity].
           exists [], c0, containers.
           split; [reflexivity | split; [intros c' [] | right; now split] ].
      * rewrite IH. split.
        -- intros (pre & c & post & -> & Hpre & Hc).
           exists (c0 :: pre), c, post.
           split; [reflexivity | split; [ | exact Hc] ].
           intros c' [<- | Hin]; [now exists n | now apply Hpre].
        -- intros (pre & c & post & Hsplit & Hpre & Hc).
           destruct pre as [|c1 pre]; cbn in Hsplit;
             injection Hsplit as <- Hrest.
           ++ destruct Hc as [Hc | [Hc _]]; congruence.
           ++ exists pre, c, post.
              split; [now symmetry | split; [ | exact Hc] ].
              intros c' Hin. apply Hpre. now right.
    + split; [intros _ | reflexivity].
      exists [], c0, containers.
      split; [reflexivity | split; [intros c' [] | now left] ].
Qed.

(** X18: when the first task of the details carries no host reference, as
    for a task that runs on no container instance, the task resolver panics
    on the nil pointer, and so does the pass: it makes no further lookup,
    launches nothing, sleeps nothing and writes nothing to the log. *)
Theorem getECSTask_without_host_reference (fl : Flags) (p : option string)
    (region : string) (i : Z) (h : list Event) (g : Source)
    (out : ecs.ListTasksOutput) :
  let input :=
    {| ecs.lt_Cluster := clusterName fl;
       ecs.lt_ServiceName := serviceName fl;
       ecs.lt_DesiredStatus := types.DesiredStatusRunning |} in
  ListTasks env h input = inl out ->
  ecs.TaskArns out <> [] ->
  let now := UnixNano env (h ++ [EvListTasks input (inl out)]) in
  let k := fst (rand_Intn (rand_Seed now) (len (ecs.TaskArns out))) in
  let t := getECSTask (clusterName fl) (serviceName fl) h g in
  let r := attempt fl p region i h g in
  exists taskArn,
    nth_error (ecs.TaskArns out) (Z.to_nat k) = Some taskArn
    /\ forall describeResult task0 rest,
         DescribeTasks env (h ++ [EvListTasks input (inl out); EvNow now])
           {| ecs.dt_Cluster := clusterName fl; ecs.dt_Tasks := [taskArn] |}
         = inl describeResult ->
         ecs.Tasks describeResult = task0 :: rest ->
         types.ContainerInstanceArn task0 = None ->
         outcome t = Panic nil_dereference
         /\ outcome r = Panic nil_dereference
         /\ emitted r = emitted t
         /\ exit_status (outcome r) = 2.
Proof.
  intros input Hlist Hne now k t r.
  destruct (draw_in_range (ecs.TaskArns out) (rand_Seed now) Hne)
    as (Hk & taskArn & Hnth).
  fold k in Hk, Hnth. exists taskArn. split; [exact Hnth | ].
  intros describeResult task0 rest Hd Ht Hnil.
  pose proof (getECSTask_nonempty (clusterName fl) (serviceName fl) h g out
                taskArn Hlist Hne (proj1 Hk) Hnth) as Hrun.
  cbv zeta in Hrun. fold input now in Hrun. fold t in Hrun.
  rewrite Hd, Ht, Hnil in Hrun.
  assert (Hr : r = mkRan (Panic nil_dereference) (emitted t) (source t)).
  { subst r. unfold attempt. unfold bind at 1. fold t. rewrite Hrun.
    reflexivity. }
  rewrite Hr, Hrun. repeat split.
Qed.

Lemma ends_with_log_last (es : list Event) (format : string)
    (args : list Arg) :
  last es (EvNow 0) = EvLog format args -> ends_with_log es.
Proof.
  intros Hlast. destruct es as [|e es]; [discriminate Hlast | ].
  exists (removelast (e :: es)), format, args.
  rewrite <- Hlast. apply app_removelast_last. discriminate.
Qed.

Lemma ends_with_log_app (front back : list Event) :
  ends_with_log back -> ends_with_log (front ++ back).
Proof.
  intros (pre & format & args & ->). exists (front ++ pre), format, args.
  now rewrite app_assoc.
Qed.

Lemma attempt_exit_reported (fl : Flags) (p : option string) (region : string)
    (i : Z) (h : list Event) (g : Source) (c : Z) :
  outcome (attempt fl p region i h g) = Exit c ->
  ends_with_log (emitted (attempt fl p region i h g)).
Proof.
  run_program; intros H; try discriminate H.
  all: eapply ends_with_log_last; cbn; reflexivity.
Qed.

Lemma loop_exit_reported (fl : Flags) (p : option string) (region : string)
    (indices : list Z) (h : list Event) (g : Source) (c : Z) :
  outcome (for_range indices (attempt fl p region) h g) = Exit c ->
  ends_with_log (emitted (for_range indices (attempt fl p region) h g)).
Proof.
  revert h g. induction indices as [|i rest IH]; intros h g.
  - discriminate.
  - rewrite for_range_cons. cbv zeta.
    pose proof (attempt_exit_reported fl p region i h g) as Hexit.
    destruct (outcome (attempt fl p region i h g)) as [[ | ] | c' | msg];
      cbn [outcome emitted]; intros H; try discriminate H.
    + apply ends_with_log_app. now apply IH.
    + now apply (Hexit c').
Qed.

(** X15: [main] never fails in silence: whenever it ends the process with
    status 1, the last thing it did was to write a message to the log. *)
Theorem main_failure_is_reported (fl : Flags) (h : list Event) (g : Source) :
  outcome (main fl h g) = Exit 1 ->
  ends_with_log (emitted (main fl h g)).
Proof.
  destruct (String.eqb_spec (serviceName fl) "") as [Hs | Hs].
  { unfold main. apply String.eqb_eq in Hs. rewrite Hs. intros _.
    now exists [], usage, []. }
  destruct (String.eqb_spec (containerName fl) "") as [Hc | Hc].
  { unfold main. apply String.eqb_eq in Hc. rewrite Hc, orb_true_r. intros _.
    now exists [], usage, []. }
  rewrite (main_unfold fl h g Hs Hc). cbv zeta.
  destruct (LoadDefaultConfig env h _ _) as [err | ].
  { intros _. eapply ends_with_log_last. reflexivity. }
  destruct (GetCallerIdentity env _) as [identity | e].
  2: { intros _. eapply ends_with_log_last. reflexivity. }
  cbn [outcome emitted]. rewrite retryController_unfold. cbv zeta.
  match goal with
  | |- context [for_range ?l ?b ?hh ?gg] =>
      pose proof (loop_exit_reported fl (Some (profile fl)) "eu-west-2"
                    l hh gg) as Hloop;
      destruct (for_range l b hh gg) as [[[ | ] | c | msg] es g1]
  end; cbn [outcome emitted] in *; intros H; try discriminate H.
  - match goal with
    | |- ends_with_log (?a :: ?b :: ?c :: ?l ++ [EvLog ?f ?x]) =>
        exists (a :: b :: c :: l), f, x; reflexivity
    end.
  - match goal with
    | |- ends_with_log (?a :: ?b :: ?c :: ?l) =>
        apply (ends_with_log_app [a; b; c] l)
    end.
    now apply (Hloop c).
Qed.

(** X16: before the last pass the error of a failing resolver is never
    written to the log: a pass that ends without a launch logs no error
    value, whatever made the resolver fail. *)
Theorem resolver_error_not_logged_before_last_pass (fl : Flags)
    (p : option string) (region : string) (i : Z) (h : list Event)
    (g : Source) (format : string) (args : list Arg) (err : error) :
  i < maxRetries - 1 ->
  count is_Run (emitted (attempt fl p region i h g)) = 0%nat ->
  In (EvLog format args) (emitted (attempt fl p region i h g)) ->
  ~ In (ArgError err) args.
Proof.
  run_program; intros Hi Hrun Hin Harg; reflect_tests;
    unfold maxRetries in *; try lia; try (cbn in Hrun; discriminate Hrun).
  all: in_cases Hin; injection Hin as <- <-; in_cases Harg.
Qed.

End Program.

Arguments outcome {Source A} r.
Arguments emitted {Source A} r.
Arguments source {Source A} r.
Arguments fails {Source} r.
Arguments succeeds {Source} r.

(** ** The properties on the example collaborators *)

(** The example generator keeps the contract of [rand.Intn]. *)
Lemma toy_Intn_range (g n : Z) : 0 < n -> 0 <= fst (toy_Intn g n) < n.
Proof. intros Hn. cbn [toy_Intn fst]. apply Z.mod_pos_bound. exact Hn. Qed.

(** In the scenario [sidecar] is found behind [app], and [missing] is not
    found although the list is not empty. *)
Lemma getContainerID_first_match_witness :
  outcome (getContainerID Z env_prod "prod" "T1" "sidecar" [] 0)
  = Ret (Ok "rt-456")
  /\ outcome (getContainerID Z env_prod "prod" "T1" "missing" [] 0)
     = Ret (Err (ContainerNotFound "missing")).
Proof.
  split.
  - apply (proj1 (getContainerID_first_match Z env_prod "prod" "T1" "sidecar"
                    [] 0 {| ecs.Tasks := [example_task] |} example_task []
                    eq_refl eq_refl)
             [ {| types.Name := Some "app"; types.RuntimeId := Some "rt-123" |} ]
             {| types.Name := Some "sidecar"; types.RuntimeId := Some "rt-456" |}
             [] "rt-456" eq_refl).
    + intros c' [<- | []]. exists "app". split; [reflexivity | discriminate].
    + reflexivity.
    + reflexivity.
  - apply (proj2 (getContainerID_first_match Z env_prod "prod" "T1"
                    "missing" [] 0 {| ecs.Tasks := [example_task] |}
                    example_task [] eq_refl eq_refl)).
    intros c [<- | [<- | []]]; eexists; (split; [reflexivity | discriminate]).
Defined.

(** C1 (as stated): the first container of the task is named [app] but has
    not started and carries no runtime identifier: the resolver returns
    nothing for [app], it panics; and although no container of the list is
    named [web], the resolver does not fail with [ContainerNotFound] for
    [web]: the second container carries no name and the scan panics on
    it. *)
Lemma getContainerID_first_match_counterexample :
  let answer name :=
    outcome (getContainerID Z env_pending "prod" "T1" name [] 0) in
  DescribeTasks env_pending []
    {| ecs.dt_Cluster := "prod"; ecs.dt_Tasks := ["T1"] |}
  = inl {| ecs.Tasks :=
             [ {| types.ContainerInstanceArn := Some "H1";
                  types.Containers := pending_containers |} ] |}
  /\ (exists c post,
        pending_containers = c :: post /\ types.Name c = Some "app")
  /\ answer "app" = Panic nil_dereference
  /\ (forall runtimeId, answer "app" <> Ret (Ok runtimeId))
  /\ (forall c, In c pending_containers -> types.Name c <> Some "web")
  /\ answer "web" = Panic nil_dereference
  /\ answer "web" <> Ret (Err (ContainerNotFound "web")).
Proof.
  cbv zeta. repeat split; try discriminate.
  - do 2 eexists. split; reflexivity.
  - intros c [<- | [<- | []]]; discriminate.
Qed.

(** One failure of each kind: the host resolver fails in the first pass, the
    container resolver in the second and the session tool in the third;
    three passes, two backoffs, exit status 1. *)
Lemma retry_controller_exhausts_witness :
  let r :=
    retryController Z toy_Seed toy_Intn env_unlucky flags_app (Some "")
      "eu-west-2" [] 0 in
  outcome r = Exit 1
  /\ count is_ListTasks (emitted r) = 3%nat
  /\ count is_sleep (emitted r) = 2%nat.
Proof.
  assert (P1 : exists err,
             pass_result Z toy_Seed toy_Intn env_unlucky flags_app (Some "")
               "eu-west-2" 0 [] 0 (Some err)).
  { exists DescribeInstanceFailed.
    eapply host_failed;
      [reflexivity | vm_compute; reflexivity | reflexivity
       | vm_compute; reflexivity]. }
  assert (P2 : exists err,
             pass_result Z toy_Seed toy_Intn env_unlucky flags_app (Some "")
               "eu-west-2" 1
               ([] ++ emitted (attempt Z toy_Seed toy_Intn env_unlucky
                                 flags_app (Some "") "eu-west-2" 0 [] 0))
               (source (attempt Z toy_Seed toy_Intn env_unlucky flags_app
                          (Some "") "eu-west-2" 0 [] 0))
               (Some err)).
  { exists (ContainerNotFound "app").
    eapply container_failed;
      [reflexivity | vm_compute; reflexivity | reflexivity | reflexivity
       | vm_compute; reflexivity | reflexivity | vm_compute; reflexivity]. }
  assert (P3 : exists err,
             pass_result Z toy_Seed toy_Intn env_unlucky flags_app (Some "")
               "eu-west-2" 2
               (([] ++ emitted (attempt Z toy_Seed toy_Intn env_unlucky
                                  flags_app (Some "") "eu-west-2" 0 [] 0))
                ++ emitted
                     (attempt Z toy_Seed toy_Intn env_unlucky flags_app
                        (Some "") "eu-west-2" 1
                        ([] ++ emitted (attempt Z toy_Seed toy_Intn env_unlucky
                                          flags_app (Some "") "eu-west-2" 0
                                          [] 0))
                        (source (attempt Z toy_Seed toy_Intn env_unlucky
                                   flags_app (Some "") "eu-west-2" 0 [] 0))))
               (source
                  (attempt Z toy_Seed toy_Intn env_unlucky flags_app
                     (Some "") "eu-west-2" 1
                     ([] ++ emitted (attempt Z toy_Seed toy_Intn env_unlucky
                                       flags_app (Some "") "eu-west-2" 0
                                       [] 0))
                     (source (attempt Z toy_Seed toy_Intn env_unlucky
                                flags_app (Some "") "eu-west-2" 0 [] 0))))
               (Some err)).
  { exists "exit status 255".
    eapply session_run;
      [reflexivity | vm_compute; reflexivity | reflexivity | reflexivity
       | vm_compute; reflexivity | reflexivity | reflexivity
       | vm_compute; reflexivity | reflexivity | vm_compute; reflexivity]. }
  destruct (retry_controller_exhausts Z toy_Seed toy_Intn env_unlucky
              flags_app (Some "") "eu-west-2" [] 0 P1 P2 P3)
    as (_ & _ & Ho & _ & _ & Hl & Hs & _).
  exact (conj Ho (conj Hl Hs)).
Defined.

(** A service without running tasks: the pass stops after listing them. *)
Lemma no_running_tasks_no_further_lookup_witness :
  let r :=
    attempt Z toy_Seed toy_Intn env_no_tasks flags_app (Some "") "eu-west-2"
      0 [] 0 in
  outcome (getECSTask Z toy_Seed toy_Intn env_no_tasks "prod" "web" [] 0)
  = Ret (Err (NoRunningTasks "web"))
  /\ count is_DescribeTasks (emitted r) = 0%nat
  /\ count is_DescribeContainerInstances (emitted r) = 0%nat
  /\ count is_Run (emitted r) = 0%nat.
Proof.
  destruct (no_running_tasks_no_further_lookup Z toy_Seed toy_Intn
              env_no_tasks flags_app (Some "") "eu-west-2" 0 [] 0
              {| ecs.TaskArns := [] |} eq_refl eq_refl)
    as (Ht & _ & _ & Hd & Hh & Hr & _).
  exact (conj Ht (conj Hd (conj Hh Hr))).
Defined.

(** Three running tasks, the clock at 1 when the source is seeded: the draw
    is 1 and the task described is [T2]. *)
Lemma getECSTask_selects_at_fresh_draw_witness :
  exists d,
    emitted (getECSTask Z toy_Seed toy_Intn env_three "prod" "web" [] 0)
    = [ EvListTasks
          {| ecs.lt_Cluster := "prod";
             ecs.lt_ServiceName := "web";
             ecs.lt_DesiredStatus := types.DesiredStatusRunning |}
          (inl {| ecs.TaskArns := ["T1"; "T2"; "T3"] |});
        EvNow 1;
        EvDescribeTasks
          {| ecs.dt_Cluster := "prod"; ecs.dt_Tasks := ["T2"] |} d ].
Proof.
  destruct (getECSTask_selects_at_fresh_draw Z toy_Seed toy_Intn env_three
              toy_Intn_range "prod" "web" [] 0
              {| ecs.TaskArns := ["T1"; "T2"; "T3"] |} eq_refl
              ltac:(discriminate))
    as (_ & taskArn & Hnth & _ & Hd & _).
  vm_compute in Hnth. injection Hnth as <-. exact Hd.
Defined.

(** The service comes up: the task resolver fails in the first pass, the
    host resolver in the second, and the third pass starts the session: exit
    status 0 after two backoffs. *)
Lemma retry_controller_third_time_lucky_witness :
  let r :=
    retryController Z toy_Seed toy_Intn env_recovering flags_app (Some "")
      "eu-west-2" [] 0 in
  outcome r = Ret tt
  /\ exit_status (outcome r) = 0
  /\ count is_sleep (emitted r) = 2%nat.
Proof.
  assert (P1 : exists err,
             pass_result Z toy_Seed toy_Intn env_recovering flags_app
               (Some "") "eu-west-2" 0 [] 0 (Some err)).
  { exists (NoRunningTasks "web").
    eapply task_failed. vm_compute. reflexivity. }
  assert (P2 : exists err,
             pass_result Z toy_Seed toy_Intn env_recovering flags_app
               (Some "") "eu-west-2" 1
               ([] ++ emitted (attempt Z toy_Seed toy_Intn env_recovering
                                 flags_app (Some "") "eu-west-2" 0 [] 0))
               (source (attempt Z toy_Seed toy_Intn env_recovering flags_app
                          (Some "") "eu-west-2" 0 [] 0))
               (Some err)).
  { exists DescribeInstanceFailed.
    eapply host_failed;
      [reflexivity | vm_compute; reflexivity | reflexivity
       | vm_compute; reflexivity]. }
  assert (P3 :
            pass_result Z toy_Seed toy_Intn env_recovering flags_app
              (Some "") "eu-west-2" 2
              (([] ++ emitted (attempt Z toy_Seed toy_Intn env_recovering
                                 flags_app (Some "") "eu-west-2" 0 [] 0))
               ++ emitted
                    (attempt Z toy_Seed toy_Intn env_recovering flags_app
                       (Some "") "eu-west-2" 1
                       ([] ++ emitted (attempt Z toy_Seed toy_Intn
                                         env_recovering flags_app (Some "")
                                         "eu-west-2" 0 [] 0))
                       (source (attempt Z toy_Seed toy_Intn env_recovering
                                  flags_app (Some "") "eu-west-2" 0 [] 0))))
              (source
                 (attempt Z toy_Seed toy_Intn env_recovering flags_app
                    (Some "") "eu-west-2" 1
                    ([] ++ emitted (attempt Z toy_Seed toy_Intn env_recovering
                                      flags_app (Some "") "eu-west-2" 0
                                      [] 0))
                    (source (attempt Z toy_Seed toy_Intn env_recovering
                               flags_app (Some "") "eu-west-2" 0 [] 0))))
              None).
  { eapply session_run;
      [reflexivity | vm_compute; reflexivity | reflexivity | reflexivity
       | vm_compute; reflexivity | reflexivity | reflexivity
       | vm_compute; reflexivity | reflexivity | vm_compute; reflexivity]. }
  destruct (retry_controller_third_time_lucky Z toy_Seed toy_Intn
              env_recovering flags_app (Some "") "eu-west-2" [] 0 P1 P2 P3)
    as (Ho & Hx & _ & _ & _ & Hs & _).
  exact (conj Ho (conj Hx Hs)).
Defined.


(** In the scenario the task resolver returns task [T1] with host reference
    [H1]. *)
Lemma getECSTask_describes_selected_task_witness :
  outcome (getECSTask Z toy_Seed toy_Intn env_prod "prod" "web" [] 0)
  = Ret (Ok ("T1", "H1")).
Proof.
  destruct (getECSTask_describes_selected_task Z toy_Seed toy_Intn env_prod
              toy_Intn_range "prod" "web" [] 0 {| ecs.TaskArns := ["T1"] |}
              eq_refl ltac:(discriminate))
    as (taskArn & Hnth & _ & _ & _ & Hok).
  vm_compute in Hnth. injection Hnth as <-.
  exact (Hok {| ecs.Tasks := [example_task] |} example_task [] "H1"
           eq_refl eq_refl eq_refl).
Defined.

(** C9 (as stated): the details of the selected task are returned, but the
    task runs on no container instance and carries no host reference: the
    resolver neither fails with [DescribeFailed] nor returns a pair, it
    panics. *)
Lemma getECSTask_describes_selected_task_counterexample :
  let r := getECSTask Z toy_Seed toy_Intn env_fargate "prod" "web" [] 0 in
  (exists listed task0,
      emitted r
      = [ listed; EvNow 1;
          EvDescribeTasks
            {| ecs.dt_Cluster := "prod"; ecs.dt_Tasks := ["T1"] |}
            (inl {| ecs.Tasks := [task0] |}) ])
  /\ outcome r = Panic nil_dereference
  /\ outcome r <> Ret (Err DescribeFailed)
  /\ (forall taskArn hostRef, outcome r <> Ret (Ok (taskArn, hostRef))).
Proof.
  cbv zeta. repeat split; try discriminate.
  do 2 eexists. vm_compute. reflexivity.
Qed.

(** During the outage and after it the resolvers return the same errors. *)
Lemma failed_call_indistinguishable_from_empty_witness :
  outcome (getECSTask Z toy_Seed toy_Intn env_outage "prod" "web" [EvSleep 0] 0)
  = outcome (getECSTask Z toy_Seed toy_Intn env_outage "prod" "web" [] 0)
  /\ outcome (getEC2InstanceID Z toy_Seed toy_Intn env_outage "prod" "H1"
                [EvSleep 0] 0)
     = outcome (getEC2InstanceID Z toy_Seed toy_Intn env_outage "prod" "H1"
                  [] 0)
  /\ outcome (getContainerID Z env_outage "prod" "T1" "app" [EvSleep 0] 0)
     = outcome (getContainerID Z env_outage "prod" "T1" "app" [] 0).
Proof.
  destruct (failed_call_indistinguishable_from_empty Z toy_Seed toy_Intn
              env_outage "prod" "web" "H1" "T1" "app" [] [EvSleep 0] 0 0)
    as (HT & HH & HC).
  split; [ | split].
  - exact (proj2 (HT "RequestError: send request failed"
                    {| ecs.TaskArns := [] |} eq_refl eq_refl eq_refl)).
  - exact (proj2 (HH "RequestError: send request failed"
                    {| ecs.ContainerInstances := [] |}
                    eq_refl eq_refl eq_refl)).
  - exact (proj2 (HC "RequestError: send request failed"
                    {| ecs.Tasks := [] |} eq_refl eq_refl eq_refl)).
Defined.

(** C3 (evaluation): [main] run without a profile flag, on the scenario of
    the specification, still launches the session tool with a profile
    argument, the empty string. *)
Theorem main_forwards_unset_profile :
  let r := main Z toy_Seed toy_Intn env_prod flags_app [] 0 in
  profile flags_app = ""
  /\ outcome r = Ret tt
  /\ In (EvRun
           [ "aws"; "ssm"; "start-session"; "--target"; "I1";
             "--document-name"; "AWS-StartInteractiveCommand";
             "--parameters"; ssmParameters "rt-123";
             "--region"; "eu-west-2"; "--profile"; "" ] None)
        (emitted r)
  /\ ssmCmd "I1" "rt-123" None "eu-west-2"
     = [ "aws"; "ssm"; "start-session"; "--target"; "I1";
         "--document-name"; "AWS-StartInteractiveCommand";
         "--parameters"; ssmParameters "rt-123";
         "--region"; "eu-west-2" ].
Proof.
  cbv zeta. repeat split.
  vm_compute. do 13 right. left. reflexivity.
Qed.

(** C8 (evaluation): when the control plane returns no host instance, the
    host resolver fails with the error of a failed describe call, which is
    not the no-host-instances error. *)
Theorem getEC2InstanceID_empty_answer_error :
  outcome (getEC2InstanceID Z toy_Seed toy_Intn env_no_hosts "prod" "H1" [] 0)
  = Ret (Err DescribeInstanceFailed)
  /\ DescribeInstanceFailed <> NoHostInstances "prod".
Proof. split; [reflexivity | discriminate]. Qed.

(** The host resolver on a non-empty answer, on the examples: the identifier
    of the instance at the drawn index is returned, and an instance without
    identifier makes the resolver panic. *)
Lemma getEC2InstanceID_nonempty_witness :
  outcome (getEC2InstanceID Z toy_Seed toy_Intn env_prod "prod" "H1" [] 0)
  = Ret (Ok "I1")
  /\ outcome (getEC2InstanceID Z toy_Seed toy_Intn env_unregistered "prod"
                "H1" [] 0)
     = Panic nil_dereference.
Proof.
  split.
  - destruct (getEC2InstanceID_nonempty Z toy_Seed toy_Intn env_prod
                toy_Intn_range "prod" "H1" [] 0
                {| ecs.ContainerInstances :=
                     [ {| types.Ec2InstanceId := Some "I1" |} ] |}
                eq_refl ltac:(discriminate))
      as (_ & inst & Hnth & Hrun).
    vm_compute in Hnth. injection Hnth as <-.
    rewrite Hrun. reflexivity.
  - destruct (getEC2InstanceID_nonempty Z toy_Seed toy_Intn env_unregistered
                toy_Intn_range "prod" "H1" [] 0
                {| ecs.ContainerInstances :=
                     [ {| types.Ec2InstanceId := None |} ] |}
                eq_refl ltac:(discriminate))
      as (_ & inst & Hnth & Hrun).
    vm_compute in Hnth. injection Hnth as <-.
    rewrite Hrun. reflexivity.
Defined.

(** Every launch of [main] on the example carries the profile pointer. *)
Lemma main_run_argv_witness :
  exists instanceID containerID,
    ssmCmd "I1" "rt-123" (Some "") "eu-west-2"
    = ssmCmd instanceID containerID (Some (profile flags_app)) "eu-west-2".
Proof.
  apply (main_run_argv Z toy_Seed toy_Intn env_prod flags_app [] 0
           (ssmCmd "I1" "rt-123" (Some "") "eu-west-2") None).
  vm_compute. do 13 right. left. reflexivity.
Defined.

(** ** The scenarios of the specification, run *)

(** [startSSMSession] by itself: a nil pointer adds nothing to the command
    line, a pointer adds the profile flag and the value pointed to. *)
Example ssmCmd_profile (instanceID containerID region p : string) :
  ssmCmd instanceID containerID (Some p) region
  = ssmCmd instanceID containerID None region ++ ["--profile"; p].
Proof. reflexivity. Qed.

(** Cluster [prod], service [web], container [app]: the resolver selects
    [rt-123] on instance [I1], the session starts at the first attempt and
    the process exits with status 0. *)
Example scenario_session_starts :
  let r := main Z toy_Seed toy_Intn env_prod flags_app [] 0 in
  exit_status (outcome r) = 0
  /\ count is_ListTasks (emitted r) = 1%nat
  /\ count is_sleep (emitted r) = 0%nat
  /\ filter is_Run (emitted r)
     = [EvRun (ssmCmd "I1" "rt-123" (Some "") "eu-west-2") None].
Proof. cbv zeta. repeat split; vm_compute; reflexivity. Qed.

(** The same with container [missing]: the container is not found in any of
    the three attempts and the process exits with a failure. *)
Example scenario_container_missing :
  let r := main Z toy_Seed toy_Intn env_prod flags_missing [] 0 in
  exit_status (outcome r) = 1
  /\ count is_ListTasks (emitted r) = 3%nat
  /\ count is_sleep (emitted r) = 2%nat
  /\ count is_Run (emitted r) = 0%nat
  /\ last (emitted r) (EvSleep 0)
     = EvLog "Error getting container ID: %v. Maximum retries reached."
         [ArgError (ContainerNotFound "missing")].
Proof. cbv zeta. repeat split; vm_compute; reflexivity. Qed.

(** The session tool fails once while the service moves from task [T1] on
    [I1] to task [T2] on [I2]: the second launch targets [I2]. *)
Example scenario_moving_target :
  let r := main Z toy_Seed toy_Intn env_moving flags_app [] 0 in
  exit_status (outcome r) = 0
  /\ filter is_Run (emitted r)
     = [ EvRun (ssmCmd "I1" "rt-123" (Some "") "eu-west-2")
           (Some "exit status 255");
         EvRun (ssmCmd "I2" "rt-123" (Some "") "eu-west-2") None ]
  /\ map (fun e => match e with
                   | EvListTasks _ (inl o) => ecs.TaskArns o
                   | _ => []
                   end)
       (filter is_ListTasks (emitted r))
     = [["T1"]; ["T2"]].
Proof. cbv zeta. repeat split; vm_compute; reflexivity. Qed.

(** Missing required flags end the process before anything is looked up. *)
Example scenario_usage :
  let r :=
    main Z toy_Seed toy_Intn env_prod
      {| clusterName := "prod"; serviceName := ""; containerName := "app";
         profile := "" |} [] 0 in
  exit_status (outcome r) = 1 /\ emitted r = [EvLog usage []].
Proof. cbv zeta. split; vm_compute; reflexivity. Qed.

(** ** Further properties on the example collaborators *)

(** Without a cluster flag the tasks of the cluster with the empty name are
    listed. *)
Lemma main_flag_validation_witness :
  exists e1 e2 e3 answer more,
    emitted (main Z toy_Seed toy_Intn env_prod flags_no_cluster [] 0)
    = e1 :: e2 :: e3
        :: EvListTasks
             {| ecs.lt_Cluster := "";
                ecs.lt_ServiceName := "web";
                ecs.lt_DesiredStatus := types.DesiredStatusRunning |}
             answer
        :: more.
Proof.
  apply (proj2 (main_flag_validation Z toy_Seed toy_Intn env_prod
                  flags_no_cluster [] 0)
           ltac:(discriminate) ltac:(discriminate) example_identity).
  vm_compute. right. left. reflexivity.
Defined.

(** A caller who is not logged in: exit status 1, nothing looked up. *)
Lemma main_nothing_without_identity_witness :
  outcome (main Z toy_Seed toy_Intn env_logged_out flags_app [] 0) = Exit 1
  /\ lookups_and_runs
       (emitted (main Z toy_Seed toy_Intn env_logged_out flags_app [] 0))
     = [].
Proof.
  assert (Hnone :
            forall identityOutput,
              ~ In (EvGetCallerIdentity (inl identityOutput))
                  (emitted (main Z toy_Seed toy_Intn env_logged_out
                              flags_app [] 0))).
  { intros identityOutput Hin. vm_compute in Hin.
    destruct Hin as [Hin | [Hin | [Hin | []]]]; discriminate Hin. }
  destruct (main_nothing_without_identity Z toy_Seed toy_Intn env_logged_out
              flags_app [] 0 Hnone) as (Ho & Hl & _).
  exact (conj Ho Hl).
Defined.


(** In the scenario the first pass describes task [T1] twice. *)
Lemma attempt_describes_task_twice_witness :
  count is_lookup
    (emitted (attempt Z toy_Seed toy_Intn env_prod flags_app (Some "")
                "eu-west-2" 0 [] 0))
  = 4%nat.
Proof.
  apply (attempt_describes_task_twice Z toy_Seed toy_Intn env_prod flags_app
           (Some "") "eu-west-2" 0 [] 0
           (ssmCmd "I1" "rt-123" (Some "") "eu-west-2") None).
  vm_compute. do 10 right. left. reflexivity.
Defined.

(** The first version on the scenario: the launch follows the four lookups. *)
Lemma main_v1_launch_target_witness :
  exists instanceID containerID,
    ssmCmd_v1 "I1" "rt-123" (Some "") "eu-west-2"
    = ssmCmd_v1 instanceID containerID (Some (profile flags_app)) "eu-west-2".
Proof.
  destruct (main_v1_launch_target Z env_prod usage flags_app [] 0
              (ssmCmd_v1 "I1" "rt-123" (Some "") "eu-west-2") None)
    as (o1 & taskArn & o2 & task0 & rest2 & hostRef & o3 & inst & instanceID
        & o4 & task1 & rest4 & containerID & _ & Hargv & _).
  { vm_compute. do 8 right. left. reflexivity. }
  exists instanceID, containerID. exact Hargv.
Defined.

(** With the one task of the scenario both task resolvers describe [T1]. *)
Lemma task_resolvers_agree_on_one_task_witness :
  exists now first second,
    emitted (getECSTask_v1 Z env_prod "prod" "web" [] 0)
    = [ EvListTasks
          {| ecs.lt_Cluster := "prod";
             ecs.lt_ServiceName := "web";
             ecs.lt_DesiredStatus := types.DesiredStatusRunning |}
          (inl {| ecs.TaskArns := ["T1"] |});
        EvDescribeTasks
          {| ecs.dt_Cluster := "prod"; ecs.dt_Tasks := ["T1"] |} first ]
    /\ emitted (getECSTask Z toy_Seed toy_Intn env_prod "prod" "web" [] 0)
       = [ EvListTasks
             {| ecs.lt_Cluster := "prod";
                ecs.lt_ServiceName := "web";
                ecs.lt_DesiredStatus := types.DesiredStatusRunning |}
             (inl {| ecs.TaskArns := ["T1"] |});
           EvNow now;
           EvDescribeTasks
             {| ecs.dt_Cluster := "prod"; ecs.dt_Tasks := ["T1"] |} second ].
Proof.
  destruct (task_resolvers_agree_on_one_task Z toy_Seed toy_Intn env_prod
              toy_Intn_range "prod" "web" [] 0 {| ecs.TaskArns := ["T1"] |}
              "T1" eq_refl eq_refl)
    as (now & first & second & H1 & H2 & _).
  exists now, first, second. exact (conj H1 H2).
Defined.

(** The container [missing]: the run fails and its last event is a message. *)
Lemma main_failure_is_reported_witness :
  ends_with_log (emitted (main Z toy_Seed toy_Intn env_prod flags_missing [] 0)).
Proof.
  apply (main_failure_is_reported Z toy_Seed toy_Intn env_prod flags_missing
           [] 0).
  vm_compute. reflexivity.
Defined.

(** No running task in the first pass: the message logged holds no error. *)
Lemma resolver_error_not_logged_before_last_pass_witness :
  ~ In (ArgError (NoRunningTasks "web")) [ArgDuration backoffDelay].
Proof.
  apply (resolver_error_not_logged_before_last_pass Z toy_Seed toy_Intn
           env_no_tasks flags_app (Some "") "eu-west-2" 0 [] 0
           "No running tasks found for service. Retrying in %v...").
  - vm_compute. reflexivity.
  - vm_compute. reflexivity.
  - vm_compute. right. left. reflexivity.
Defined.


(** A task that runs on no container instance: the first pass panics. *)
Lemma getECSTask_without_host_reference_witness :
  outcome (attempt Z toy_Seed toy_Intn env_fargate flags_app (Some "")
             "eu-west-2" 0 [] 0)
  = Panic nil_dereference.
Proof.
  destruct (getECSTask_without_host_reference Z toy_Seed toy_Intn env_fargate
              toy_Intn_range flags_app (Some "") "eu-west-2" 0 [] 0
              {| ecs.TaskArns := ["T1"] |} eq_refl ltac:(discriminate))
    as (taskArn & _ & Hpanic).
  exact (proj1 (proj2 (Hpanic
                         {| ecs.Tasks :=
                              [ {| types.ContainerInstanceArn := None;
                                   types.Containers := example_containers |} ] |}
                         {| types.ContainerInstanceArn := None;
                            types.Containers := example_containers |}
                         [] eq_refl eq_refl eq_refl))).
Defined.
